(** * Movement detector of the Polymarket bot (src/movement_detector.py,
      src/movement_bot.py, src/ws_movement_bot.py)

    Prices, z-scores and budgets are Python floats in the source.  The
    detector and the budget arithmetic are modelled over exact rationals [Q]
    (comparisons and subtractions of finite prices; NaN never arises from a
    best-ask quote).  [parse_scale_in_pcts], whose contract is about the
    rounding of a float sum, is modelled over binary64 primitive floats. *)

From Stdlib Require Import String Ascii ZArith QArith Qabs Lia Bool List.
From Stdlib Require Import Floats Lqa.
Import ListNotations.

Local Open Scope Q_scope.

(** Strict comparison on [Q] as a boolean, as Python's [<] on floats. *)
Definition Qltb (x y : Q) : bool := negb (Qle_bool y x).

Lemma Qltb_iff (x y : Q) : Qltb x y = true <-> x < y.
Proof.
  unfold Qltb. rewrite negb_true_iff. split; intro H.
  - apply Qnot_le_lt. intro Hle. apply Qle_bool_iff in Hle. congruence.
  - destruct (Qle_bool y x) eqn:E; [|reflexivity].
    apply Qle_bool_iff in E. exfalso. apply (Qlt_not_le x y); assumption.
Qed.

Lemma Qltb_false_iff (x y : Q) : Qltb x y = false <-> y <= x.
Proof.
  unfold Qltb. rewrite negb_false_iff. apply Qle_bool_iff.
Qed.

(** ** OutcomeState *)

(** Capacity of [price_history]: [deque(maxlen=60)]. *)
Definition HISTORY_MAXLEN : nat := 60.

(** [deque.append] on a deque with [maxlen]: the element goes to the right
    end and, once the deque holds more than [maxlen] items, the leftmost ones
    are discarded. *)
Definition deque_append (maxlen : nat) (h : list Q) (x : Q) : list Q :=
  let h' := h ++ [x] in skipn (length h' - maxlen) h'.

(** Timestamps ([datetime]) are abstract integers. *)
Definition timestamp := Z.

Record OutcomeState := mkOutcomeState {
  outcome_name : string;
  token_id : string;
  no_token_id : option string;
  price_history : list Q;
  baseline_price : option Q;
  current_price : option Q;
  last_update : option timestamp;
  triggered : bool;
  trigger_count : nat
}.

(** The dataclass constructor with its defaults. *)
Definition new_OutcomeState (name tok : string) (no_tok : option string)
  : OutcomeState :=
  mkOutcomeState name tok no_tok [] None None None false 0.

(** [OutcomeState.update_price(price, timestamp)]; [now] is the value of
    [datetime.now()] used when [timestamp] is falsy. *)
Definition update_price (s : OutcomeState) (price : Q)
    (ts : option timestamp) (now : timestamp) : OutcomeState :=
  {| outcome_name := outcome_name s;
     token_id := token_id s;
     no_token_id := no_token_id s;
     price_history := deque_append HISTORY_MAXLEN (price_history s) price;
     baseline_price := baseline_price s;
     current_price := Some price;
     last_update := Some (match ts with Some t => t | None => now end);
     triggered := triggered s;
     trigger_count := trigger_count s |}.

(** [OutcomeState.set_baseline(price)]: clear, re-seed with [price]. *)
Definition OutcomeState_set_baseline (s : OutcomeState) (price : Q)
  : OutcomeState :=
  {| outcome_name := outcome_name s;
     token_id := token_id s;
     no_token_id := no_token_id s;
     price_history := deque_append HISTORY_MAXLEN [] price;
     baseline_price := Some price;
     current_price := Some price;
     last_update := last_update s;
     triggered := false;
     trigger_count := 0 |}.

(** [statistics.stdev] is the square root of the sample variance below; a
    square root leaves [Q], so [get_zscore] and everything built on it take
    the standard deviation function [stdev] as a parameter. *)
Definition mean (h : list Q) : Q :=
  fold_left Qplus h 0 / inject_Z (Z.of_nat (length h)).

Definition sample_variance (h : list Q) : Q :=
  let m := mean h in
  fold_left (fun acc x => acc + (x - m) * (x - m)) h 0
    / inject_Z (Z.of_nat (length h) - 1).

(** An executable standard deviation: the square root of the reduced sample
    variance, exact whenever its numerator and denominator are squares. *)
Definition stdev_q (h : list Q) : Q :=
  let v := Qred (sample_variance h) in
  Z.sqrt (Qnum v) # Z.to_pos (Z.sqrt (Z.pos (Qden v))).

Section ZScore.

Variable stdev : list Q -> Q.

(** [OutcomeState.get_zscore()].  [statistics.stdev] raises
    [StatisticsError] only on fewer than two points, which the length check
    has already excluded. *)
Definition get_zscore (s : OutcomeState) : option Q :=
  match baseline_price s, current_price s with
  | Some b, Some c =>
      if (length (price_history s) <? 5)%nat then None
      else
        let std_dev := stdev (price_history s) in
        if Qltb std_dev (1 # 1000) then
          let change := c - b in
          if Qltb (5 # 100) (Qabs change) then
            (if Qltb 0 change then Some 10 else Some (-10))
          else Some 0
        else Some ((c - b) / std_dev)
  | _, _ => None
  end.

End ZScore.

(** [OutcomeState.get_price_change()]. *)
Definition get_price_change (s : OutcomeState) : option Q :=
  match baseline_price s, current_price s with
  | Some b, Some c => Some (c - b)
  | _, _ => None
  end.

(** ** MovementSignal and MovementDetector *)

Record MovementSignal := mkMovementSignal {
  sig_outcome_name : string;
  sig_token_id : string;
  sig_no_token_id : option string;
  sig_current_price : Q;
  sig_baseline_price : Q;
  sig_zscore : Q;
  sig_price_change : Q;
  sig_price_change_pct : Q;
  trigger_number : nat;
  budget_pct : Q;
  sig_timestamp : timestamp
}.

(** The [outcomes] dict, keyed by outcome name, in insertion order. *)
Definition outcome_map := list (string * OutcomeState).

Fixpoint dict_get (k : string) (m : outcome_map) : option OutcomeState :=
  match m with
  | [] => None
  | (k', v) :: m' => if String.eqb k k' then Some v else dict_get k m'
  end.

(** [d[k] = v]: an existing key keeps its position, a new key goes last. *)
Fixpoint dict_set (k : string) (v : OutcomeState) (m : outcome_map)
  : outcome_map :=
  match m with
  | [] => [(k, v)]
  | (k', v') :: m' =>
      if String.eqb k k' then (k', v) :: m' else (k', v') :: dict_set k v m'
  end.

Record MovementDetector := mkMovementDetector {
  zscore_threshold : Q;
  scale_in_pcts : list Q;
  max_buy_price : Q;
  min_price_change : Q;
  outcomes : outcome_map;
  baseline_set : bool;
  window_start : option timestamp;
  total_signals : nat;
  budget_spent_pct : Q;
  locked_outcome : option string
}.

Definition DEFAULT_SCALE_IN_PCTS : list Q := [50; 30; 20].

(** [MovementDetector.__init__]; [scale_in_pcts or [...]] replaces a
    missing or empty schedule by the default. *)
Definition new_MovementDetector (zscore_threshold : Q)
    (scale_in_pcts : option (list Q)) (max_buy_price min_price_change : Q)
  : MovementDetector :=
  {| zscore_threshold := zscore_threshold;
     scale_in_pcts := match scale_in_pcts with
                      | Some (_ :: _ as l) => l
                      | _ => DEFAULT_SCALE_IN_PCTS
                      end;
     max_buy_price := max_buy_price;
     min_price_change := min_price_change;
     outcomes := [];
     baseline_set := false;
     window_start := None;
     total_signals := 0;
     budget_spent_pct := 0;
     locked_outcome := None |}.

Definition default_MovementDetector : MovementDetector :=
  new_MovementDetector (25 # 10) None (95 # 100) (5 # 100).

(** Functional record updates used by the methods below. *)
Definition with_outcomes (d : MovementDetector) (m : outcome_map)
  : MovementDetector :=
  {| zscore_threshold := zscore_threshold d; scale_in_pcts := scale_in_pcts d;
     max_buy_price := max_buy_price d; min_price_change := min_price_change d;
     outcomes := m; baseline_set := baseline_set d;
     window_start := window_start d; total_signals := total_signals d;
     budget_spent_pct := budget_spent_pct d;
     locked_outcome := locked_outcome d |}.

(** [MovementDetector.reset()]: configuration is kept. *)
Definition reset (d : MovementDetector) : MovementDetector :=
  {| zscore_threshold := zscore_threshold d; scale_in_pcts := scale_in_pcts d;
     max_buy_price := max_buy_price d; min_price_change := min_price_change d;
     outcomes := []; baseline_set := false; window_start := None;
     total_signals := 0; budget_spent_pct := 0; locked_outcome := None |}.

(** A market outcome as handed to the detector.  [order_book] is [None]
    when there is no book, otherwise the list of ask levels, each the result
    of [float(...)] on the level's price ([None] when that raises). *)
Record MarketOutcome := mkMarketOutcome {
  outcome : string;
  mo_token_id : string;
  mo_no_token_id : option string;
  order_book : option (list (option Q))
}.

(** [MovementDetector._get_best_ask(order_book)]: the first ask level. *)
Definition get_best_ask (ob : option (list (option Q))) : option Q :=
  match ob with
  | None => None
  | Some [] => None
  | Some (a :: _) => a
  end.

(** [MovementDetector.set_baseline(market_outcomes)]. *)
Definition set_baseline (d : MovementDetector) (mos : list MarketOutcome)
    (now : timestamp) : MovementDetector :=
  let m := fold_left
    (fun m mo =>
       match get_best_ask (order_book mo) with
       | None => m
       | Some ask =>
           let st := new_OutcomeState (outcome mo) (mo_token_id mo)
                                      (mo_no_token_id mo) in
           dict_set (outcome mo) (OutcomeState_set_baseline st ask) m
       end)
    mos (outcomes d) in
  {| zscore_threshold := zscore_threshold d; scale_in_pcts := scale_in_pcts d;
     max_buy_price := max_buy_price d; min_price_change := min_price_change d;
     outcomes := m; baseline_set := true; window_start := Some now;
     total_signals := total_signals d; budget_spent_pct := budget_spent_pct d;
     locked_outcome := locked_outcome d |}.

Section Detector.

Variable stdev : list Q -> Q.

(** [MovementDetector._check_trigger(state)]: the signal (if any), the
    detector and the state object after the call.  The state is mutated only
    on acceptance, after every check. *)
Definition check_trigger (d : MovementDetector) (s : OutcomeState)
    (now : timestamp)
  : option MovementSignal * MovementDetector * OutcomeState :=
  match get_zscore stdev s with
  | None => (None, d, s)
  | Some z =>
  if Qltb z (zscore_threshold d) then (None, d, s) else
  let price_change := get_price_change s in
  if match price_change with
     | Some pc => Qltb pc (min_price_change d)
     | None => false
     end then (None, d, s) else
  match current_price s, baseline_price s, price_change with
  | Some c, Some b, Some pc =>
  if Qltb (max_buy_price d) c then (None, d, s) else
  if match locked_outcome d with
     | Some o => negb (String.eqb o (outcome_name s))
     | None => false
     end then (None, d, s) else
  let trigger_num := S (trigger_count s) in
  if (length (scale_in_pcts d) <? trigger_num)%nat then (None, d, s) else
  let bpct := nth (trigger_num - 1) (scale_in_pcts d) 0 in
  let s' := {| outcome_name := outcome_name s; token_id := token_id s;
               no_token_id := no_token_id s;
               price_history := price_history s;
               baseline_price := baseline_price s;
               current_price := current_price s;
               last_update := last_update s;
               triggered := true; trigger_count := trigger_num |} in
  let d' := {| zscore_threshold := zscore_threshold d;
               scale_in_pcts := scale_in_pcts d;
               max_buy_price := max_buy_price d;
               min_price_change := min_price_change d;
               outcomes := outcomes d; baseline_set := baseline_set d;
               window_start := window_start d;
               total_signals := total_signals d;
               budget_spent_pct := budget_spent_pct d + bpct;
               locked_outcome := match locked_outcome d with
                                 | None => Some (outcome_name s)
                                 | Some o => Some o
                                 end |} in
  let pct := if Qltb 0 b then pc / b * 100 else 0 in
  (Some {| sig_outcome_name := outcome_name s; sig_token_id := token_id s;
           sig_no_token_id := no_token_id s; sig_current_price := c;
           sig_baseline_price := b; sig_zscore := z; sig_price_change := pc;
           sig_price_change_pct := pct; trigger_number := trigger_num;
           budget_pct := bpct;
           sig_timestamp := match last_update s with
                            | Some t => t | None => now end |},
   d', s')
  (* unreachable: [get_zscore] returned a value, so both prices are set *)
  | _, _, _ => (None, d, s)
  end
  end.

(** First pass of [update_prices]: every tracked outcome with a best ask
    gets [update_price(best_ask, now)]. *)
Definition update_all_prices (m : outcome_map) (mos : list MarketOutcome)
    (now : timestamp) : outcome_map :=
  fold_left
    (fun m mo =>
       match dict_get (outcome mo) m with
       | None => m
       | Some st =>
           match get_best_ask (order_book mo) with
           | None => m
           | Some ask => dict_set (outcome mo) (update_price st ask (Some now) now) m
           end
       end)
    mos m.

(** Second pass: the first entry whose z-score beats the running best,
    which starts at [0.0]. *)
Definition find_best (m : outcome_map)
  : option (string * OutcomeState) * Q :=
  fold_left
    (fun acc '(name, st) =>
       let '(best, best_z) := acc in
       match get_zscore stdev st with
       | Some z => if Qltb best_z z then (Some (name, st), z) else acc
       | None => acc
       end)
    m (None, 0).

(** [MovementDetector.update_prices(market_outcomes)]. *)
Definition update_prices (d : MovementDetector) (mos : list MarketOutcome)
    (now : timestamp) : list MovementSignal * MovementDetector :=
  if negb (baseline_set d) then ([], d) else
  let m := update_all_prices (outcomes d) mos now in
  let d1 := with_outcomes d m in
  match fst (find_best m) with
  | None => ([], d1)
  | Some (name, st) =>
      let '(sg, d2, st') := check_trigger d1 st now in
      let d3 := with_outcomes d2 (dict_set name st' (outcomes d2)) in
      match sg with
      | Some sg =>
          ([sg], {| zscore_threshold := zscore_threshold d3;
                    scale_in_pcts := scale_in_pcts d3;
                    max_buy_price := max_buy_price d3;
                    min_price_change := min_price_change d3;
                    outcomes := outcomes d3; baseline_set := baseline_set d3;
                    window_start := window_start d3;
                    total_signals := S (total_signals d3);
                    budget_spent_pct := budget_spent_pct d3;
                    locked_outcome := locked_outcome d3 |})
      | None => ([], d3)
      end
  end.

End Detector.

(** ** Sessions of calls on one detector *)

Inductive detector_op :=
  | OpUpdatePrices (mos : list MarketOutcome) (now : timestamp)
  | OpCheckTrigger (name : string) (now : timestamp)
      (* [d._check_trigger(d.outcomes[name])] *)
  | OpSetBaseline (mos : list MarketOutcome) (now : timestamp)
  | OpReset.

Section Session.

Variable stdev : list Q -> Q.

(** One call; [OpCheckTrigger] on an untracked name raises [KeyError]
    before [_check_trigger] runs, so nothing changes. *)
Definition step (d : MovementDetector) (op : detector_op)
  : list MovementSignal * MovementDetector :=
  match op with
  | OpUpdatePrices mos now => update_prices stdev d mos now
  | OpCheckTrigger name now =>
      match dict_get name (outcomes d) with
      | None => ([], d)
      | Some st =>
          let '(sg, d', st') := check_trigger stdev d st now in
          (match sg with Some x => [x] | None => [] end,
           with_outcomes d' (dict_set name st' (outcomes d')))
      end
  | OpSetBaseline mos now => ([], set_baseline d mos now)
  | OpReset => ([], reset d)
  end.

(** A sequence of calls: final detector and every signal, in order. *)
Fixpoint run (d : MovementDetector) (ops : list detector_op)
  : list MovementSignal * MovementDetector :=
  match ops with
  | [] => ([], d)
  | op :: ops' =>
      let '(s1, d1) := step d op in
      let '(s2, d2) := run d1 ops' in
      (s1 ++ s2, d2)
  end.

End Session.

Definition is_trigger_attempt (op : detector_op) : bool :=
  match op with
  | OpUpdatePrices _ _ | OpCheckTrigger _ _ => true
  | _ => false
  end.

Definition is_reset (op : detector_op) : bool :=
  match op with OpReset => true | _ => false end.

(** Concrete inputs: a market outcome quoted at a single ask. *)
Definition quote (name : string) (p : Q) : MarketOutcome :=
  mkMarketOutcome name name None (Some [Some p]).

Definition tick (names : list string) (p : Q) (now : timestamp)
  : detector_op :=
  OpUpdatePrices (map (fun n => quote n p) names) now.

(** Scenario C of the specification: one outcome rising from 0.10. *)
Definition scenario_c_prices : list Q :=
  [10 # 100; 12 # 100; 15 # 100; 20 # 100; 25 # 100; 30 # 100; 35 # 100;
   40 # 100; 45 # 100; 50 # 100].

(** ** Session controller: [_execute_signal] *)

(** [MovementBot] (polling, src/movement_bot.py) and
    [WebSocketMovementBot] (src/ws_movement_bot.py). *)
Inductive BotKind := PollingBot | WebSocketBot.

Record BotSettings := mkBotSettings {
  dry_run : bool;
  has_polymarket : bool   (* [self.polymarket] is not [None] *)
}.

(** The early dry-run return: [if not self.polymarket] in the polling bot,
    [if self.settings.dry_run or not self.polymarket] in the WebSocket bot. *)
Definition skips_execution (kind : BotKind) (cfg : BotSettings) : bool :=
  match kind with
  | PollingBot => negb (has_polymarket cfg)
  | WebSocketBot => dry_run cfg || negb (has_polymarket cfg)
  end.

(** [min(self._budget_remaining * alloc_pct, self._budget_remaining)];
    Python's [min] keeps its first argument unless the second is smaller. *)
Definition trade_amount (budget pct : Q) : Q :=
  let alloc_pct := pct / 100 in
  let a := budget * alloc_pct in
  if Qltb budget a then budget else a.

(** [_execute_signal(signal)]: the remaining budget afterwards and whether
    [buy_market_order] was called; [success] is the [result.success] the
    execution sink reports when it is called. *)
Definition execute_signal (kind : BotKind) (cfg : BotSettings) (budget : Q)
    (sg : MovementSignal) (success : bool) : Q * bool :=
  if skips_execution kind cfg then (budget, false) else
  let amount := trade_amount budget (budget_pct sg) in
  if Qltb amount 1 then (budget, false) else
  (if success then budget - amount else budget, true).

(** The shared budget across a sequence of handled signals. *)
Fixpoint session_budget (kind : BotKind) (cfg : BotSettings) (budget : Q)
    (handled : list (MovementSignal * bool)) : Q :=
  match handled with
  | [] => budget
  | (sg, ok) :: rest =>
      session_budget kind cfg (fst (execute_signal kind cfg budget sg ok)) rest
  end.

(** A signal carrying only a budget percentage, for concrete runs. *)
Definition signal_with_pct (pct : Q) : MovementSignal :=
  mkMovementSignal "X" "tokX" None (40 # 100) (10 # 100) 3 (30 # 100) 300
    1 pct 0%Z.

(** ** [parse_scale_in_pcts] (Python floats as binary64) *)

(** Characters removed by [str.strip()] (the ASCII ones). *)
Definition is_space (c : ascii) : bool :=
  let n := nat_of_ascii c in
  ((9 <=? n) && (n <=? 13)) || ((28 <=? n) && (n <=? 32)).

Fixpoint lstrip (s : string) : string :=
  match s with
  | EmptyString => EmptyString
  | String c rest => if is_space c then lstrip rest else s
  end.

Fixpoint rev_string (s : string) (acc : string) : string :=
  match s with
  | EmptyString => acc
  | String c rest => rev_string rest (String c acc)
  end.

(** [x.strip()]. *)
Definition strip (s : string) : string :=
  rev_string (lstrip (rev_string (lstrip s) EmptyString)) EmptyString.

(** [s.split(sep)] for a one-character separator. *)
Fixpoint split_on (sep : ascii) (s : string) : list string :=
  match s with
  | EmptyString => [EmptyString]
  | String c rest =>
      if Ascii.eqb c sep then EmptyString :: split_on sep rest
      else match split_on sep rest with
           | [] => [String c EmptyString]
           | w :: ws => String c w :: ws
           end
  end.

(** Python's [sum] on a list of floats: left-to-right additions from 0.
    (Python 3.12 sums floats with compensation; on the inputs evaluated
    below both give the same result.) *)
Definition fsum (l : list float) : float :=
  fold_left PrimFloat.add l 0%float.

Definition DEFAULT_SCALE_IN_FLOATS : list float := [50%float; 30%float; 20%float].

Section ParseScaleIn.

(** Python's [float(x)] on a stripped token; [None] when it raises
    [ValueError]. *)
Variable py_float : string -> option float.

Fixpoint parse_all (toks : list string) : option (list float) :=
  match toks with
  | [] => Some []
  | t :: ts =>
      match py_float t, parse_all ts with
      | Some x, Some xs => Some (x :: xs)
      | _, _ => None
      end
  end.

(** [parse_scale_in_pcts(value)]; [None] is Python's [None]. *)
Definition parse_scale_in_pcts (value : option string) : list float :=
  match value with
  | None => DEFAULT_SCALE_IN_FLOATS
  | Some v =>
      if String.eqb v EmptyString then DEFAULT_SCALE_IN_FLOATS else
      match parse_all (map strip (split_on "," v)) with
      | None => DEFAULT_SCALE_IN_FLOATS
      | Some pcts =>
          if PrimFloat.ltb 100%float (fsum pcts) then
            let total := fsum pcts in
            map (fun p => (p * 100 / total)%float) pcts
          else pcts
      end
  end.

End ParseScaleIn.

Fixpoint digits_value (s : string) (acc : Z) : option Z :=
  match s with
  | EmptyString => Some acc
  | String c rest =>
      let n := nat_of_ascii c in
      if (48 <=? n) && (n <=? 57)
      then digits_value rest (acc * 10 + Z.of_nat (n - 48))%Z
      else None
  end.

(** [float(x)] on non-empty decimal digit strings below 2^53, where it is
    exact; other strings are reported as unparseable. *)
Definition decimal_float (s : string) : option float :=
  match s with
  | EmptyString => None
  | _ =>
      match digits_value s 0%Z with
      | Some z =>
          if (z <? 2 ^ 53)%Z then Some (PrimFloat.of_uint63 (Uint63.of_Z z))
          else None
      | None => None
      end
  end.

(** ** WebSocket bot (src/ws_movement_bot.py) *)

(** Lookup and assignment in a [dict] with string keys, kept as an
    association list in insertion order. *)
Fixpoint assoc_get {A} (k : string) (m : list (string * A)) : option A :=
  match m with
  | [] => None
  | (k', v) :: m' => if String.eqb k k' then Some v else assoc_get k m'
  end.

Fixpoint assoc_set {A} (k : string) (v : A) (m : list (string * A))
  : list (string * A) :=
  match m with
  | [] => [(k, v)]
  | (k', v') :: m' =>
      if String.eqb k k' then (k', v) :: m' else (k', v') :: assoc_set k v m'
  end.

(** A value decoded by [json.loads]: [null], booleans, finite numbers,
    strings, arrays and objects.  Object keys are unique ([json.loads] keeps
    the last of repeated keys); strings are ASCII.  Frames holding the
    literals [NaN], [Infinity] or [-Infinity], which [json.loads] decodes to
    non-finite floats, are outside this model. *)
#[warnings="-register-all"]
Inductive pyval :=
  | PNone
  | PBool (b : bool)
  | PNum (q : Q)
  | PStr (s : string)
  | PList (l : list pyval)
  | PDict (kvs : list (string * pyval)).

(** Python truthiness. *)
Definition truthy (v : pyval) : bool :=
  match v with
  | PNone => false
  | PBool b => b
  | PNum q => negb (Qeq_bool q 0)
  | PStr s => negb (String.eqb s EmptyString)
  | PList [] | PDict [] => false
  | PList _ | PDict _ => true
  end.

(** [data.get(k, default)] on a decoded object. *)
Definition py_get (kvs : list (string * pyval)) (k : string) (default : pyval)
  : pyval :=
  match assoc_get k kvs with Some v => v | None => default end.

(** [m.get(key)] on a [Dict[str, str]]: a string is looked up; numbers,
    booleans and [None] equal no string key; lists and dicts are unhashable
    and raise [TypeError] (the outer [None]). *)
Definition key_get (key : pyval) (m : list (string * string))
  : option (option string) :=
  match key with
  | PStr s => Some (assoc_get s m)
  | PList _ | PDict _ => None
  | _ => Some None
  end.

(** Truthiness of an [Optional[str]]. *)
Definition nonempty (o : option string) : option string :=
  match o with
  | Some s => if String.eqb s EmptyString then None else Some s
  | None => None
  end.

(** [str.upper()] on ASCII strings. *)
Definition ascii_upper (c : ascii) : ascii :=
  let n := nat_of_ascii c in
  if (97 <=? n) && (n <=? 122) then ascii_of_nat (n - 32) else c.

Fixpoint upper (s : string) : string :=
  match s with
  | EmptyString => EmptyString
  | String c rest => String (ascii_upper c) (upper rest)
  end.

(** [asks[0]] on a truthy [asks]: the element; [Caught] for the exceptions
    [_process_book_event] catches ([IndexError], [TypeError]); [Raised] for
    the [KeyError] of a dict (decoded keys are strings, never [0]). *)
Inductive index_result := Indexed (v : pyval) | Caught | Raised.

Definition first_item (v : pyval) : index_result :=
  match v with
  | PList (x :: _) => Indexed x
  | PStr (String c _) => Indexed (PStr (String c EmptyString))
  | PDict _ => Raised
  | _ => Caught
  end.

(** The bot's state used by the message handlers. *)
Record WsBot := mkWsBot {
  market_detectors : list (string * MovementDetector);   (* by event slug *)
  token_id_to_outcome : list (string * string);
  token_id_to_slug : list (string * string);
  budget_remaining : Q;
  update_count : nat;
  dropped_count : nat;
  last_signal_time : option timestamp
}.

Definition with_detectors (b : WsBot) (ds : list (string * MovementDetector))
  : WsBot :=
  {| market_detectors := ds; token_id_to_outcome := token_id_to_outcome b;
     token_id_to_slug := token_id_to_slug b; budget_remaining := budget_remaining b;
     update_count := update_count b; dropped_count := dropped_count b;
     last_signal_time := last_signal_time b |}.

(** [self._update_count += 1]. *)
Definition count_update (b : WsBot) : WsBot :=
  {| market_detectors := market_detectors b;
     token_id_to_outcome := token_id_to_outcome b;
     token_id_to_slug := token_id_to_slug b; budget_remaining := budget_remaining b;
     update_count := S (update_count b); dropped_count := dropped_count b;
     last_signal_time := last_signal_time b |}.

(** [self._dropped_count += 1]. *)
Definition count_dropped (b : WsBot) : WsBot :=
  {| market_detectors := market_detectors b;
     token_id_to_outcome := token_id_to_outcome b;
     token_id_to_slug := token_id_to_slug b; budget_remaining := budget_remaining b;
     update_count := update_count b; dropped_count := S (dropped_count b);
     last_signal_time := last_signal_time b |}.

(** [detector.total_signals += 1]. *)
Definition count_signal (d : MovementDetector) : MovementDetector :=
  {| zscore_threshold := zscore_threshold d; scale_in_pcts := scale_in_pcts d;
     max_buy_price := max_buy_price d; min_price_change := min_price_change d;
     outcomes := outcomes d; baseline_set := baseline_set d;
     window_start := window_start d; total_signals := S (total_signals d);
     budget_spent_pct := budget_spent_pct d;
     locked_outcome := locked_outcome d |}.

Section WsHandlers.

Variable stdev : list Q -> Q.
Variable cfg : BotSettings.
(** Python's [float(s)] on a string; [None] when it raises [ValueError].
    Only finite results are modelled: strings such as "nan" or "inf", for
    which [float] returns a non-finite value, are outside this model. *)
Variable py_float_str : string -> option Q.
(** [result.success] of [buy_market_order] for a signal. *)
Variable order_ok : MovementSignal -> bool.

(** [float(v)]; [None] when it raises ([TypeError] on [None], lists and
    dicts, [ValueError] on unparseable strings). *)
Definition py_float (v : pyval) : option Q :=
  match v with
  | PNum q => Some q
  | PBool b => Some (if b then 1 else 0)
  | PStr s => py_float_str s
  | _ => None
  end.

(** [WebSocketMovementBot._execute_signal(sig)]: the shared budget, and the
    time of the last successful order. *)
Definition ws_execute_signal (b : WsBot) (sg : MovementSignal) (now : timestamp)
  : WsBot :=
  let '(budget, called) :=
    execute_signal WebSocketBot cfg (budget_remaining b) sg (order_ok sg) in
  {| market_detectors := market_detectors b;
     token_id_to_outcome := token_id_to_outcome b;
     token_id_to_slug := token_id_to_slug b; budget_remaining := budget;
     update_count := update_count b; dropped_count := dropped_count b;
     last_signal_time := if called && order_ok sg then Some now
                         else last_signal_time b |}.

(** [_feed_price_to_detector(asset_id, outcome_name, slug, price)]
    ([asset_id] is unused; detectors and states are always truthy).  The
    state object is updated in place, so the dict entry holds the new
    state before [_check_trigger] runs. *)
Definition feed_price_to_detector (b : WsBot) (outcome_name slug : string)
    (price : Q) (now : timestamp) : WsBot :=
  match assoc_get slug (market_detectors b) with
  | None => b
  | Some det =>
      match dict_get outcome_name (outcomes det) with
      | None => b
      | Some st =>
          let st1 := update_price st price (Some now) now in
          let det1 := with_outcomes det (dict_set outcome_name st1 (outcomes det)) in
          let '(sg, det2, st2) := check_trigger stdev det1 st1 now in
          let det3 := with_outcomes det2 (dict_set outcome_name st2 (outcomes det2)) in
          match sg with
          | None => with_detectors b (assoc_set slug det3 (market_detectors b))
          | Some sg =>
              ws_execute_signal
                (with_detectors b
                   (assoc_set slug (count_signal det3) (market_detectors b)))
                sg now
          end
      end
  end.

(** [data.get("asset_id") or data.get("market")]. *)
Definition asset_of (data : list (string * pyval)) : pyval :=
  let v := py_get data "asset_id" PNone in
  if truthy v then v else py_get data "market" PNone.

(** The handlers return the bot state and whether an exception propagates
    out of [_process_message]. *)

(** [_process_book_event(data)]. *)
Definition process_book_event (b : WsBot) (data : list (string * pyval))
    (now : timestamp) : WsBot * bool :=
  let asset_id := asset_of data in
  if negb (truthy asset_id) then (b, false) else
  match key_get asset_id (token_id_to_outcome b),
        key_get asset_id (token_id_to_slug b) with
  | Some on, Some sl =>
      match nonempty on, nonempty sl with
      | Some o, Some slug =>
          let asks := py_get data "asks" (PList []) in
          if negb (truthy asks) then (b, false) else
          match first_item asks with
          | Raised => (b, true)
          | Caught => (b, false)
          | Indexed first_ask =>
              let v := match first_ask with
                       | PDict kvs => py_get kvs "price" (py_get kvs "p" (PNum 0))
                       | _ => first_ask
                       end in
              match py_float v with
              | None => (b, false)
              | Some best_ask =>
                  if Qle_bool best_ask 0 then (b, false)
                  else (feed_price_to_detector (count_update b) o slug best_ask now,
                        false)
              end
          end
      | _, _ => (b, false)
      end
  | _, _ => (b, true)
  end.

(** One entry of the nested [price_changes] array. *)
Definition process_change (b : WsBot) (change : pyval) (now : timestamp)
  : WsBot * bool :=
  match change with
  | PDict kvs =>
      let aid := py_get kvs "asset_id" (PStr EmptyString) in
      let best_ask_str := py_get kvs "best_ask" PNone in
      if negb (truthy aid) || negb (truthy best_ask_str) then (b, false) else
      match key_get aid (token_id_to_outcome b), key_get aid (token_id_to_slug b) with
      | Some on, Some sl =>
          match nonempty on, nonempty sl with
          | Some o, Some slug =>
              match py_float best_ask_str with
              | None => (b, false)
              | Some best_ask =>
                  if Qltb 0 best_ask
                  then (feed_price_to_detector (count_update b) o slug best_ask now,
                        false)
                  else (b, false)
              end
          | _, _ => (b, false)
          end
      | _, _ => (b, true)
      end
  | _ => (b, false)
  end.

(** The [for change in changes] loop; an exception ends it, keeping the
    updates made so far. *)
Fixpoint process_changes (b : WsBot) (changes : list pyval) (now : timestamp)
  : WsBot * bool :=
  match changes with
  | [] => (b, false)
  | c :: rest =>
      let '(b1, raised) := process_change b c now in
      if raised then (b1, true) else process_changes b1 rest now
  end.

(** [for change in data.get("price_changes", [])]: iterating a string or
    a dict yields strings, which are skipped; [None], numbers and booleans
    are not iterable ([TypeError]). *)
Definition process_nested (b : WsBot) (data : list (string * pyval))
    (now : timestamp) : WsBot * bool :=
  match py_get data "price_changes" (PList []) with
  | PList l => process_changes b l now
  | PStr _ | PDict _ => (b, false)
  | _ => (b, true)
  end.

(** [_process_price_change(data)]: the top-level ASK quote first; a valid
    positive one returns, an unparseable one returns, anything else falls
    through to the nested array.  [side.upper()] raises [AttributeError]
    when [side] is not a string. *)
Definition process_price_change (b : WsBot) (data : list (string * pyval))
    (now : timestamp) : WsBot * bool :=
  let asset_id := asset_of data in
  let side := py_get data "side" (PStr EmptyString) in
  let price_str := py_get data "price" PNone in
  if truthy asset_id && truthy price_str then
    match side with
    | PStr sd =>
        if String.eqb (upper sd) "ASK" then
          match key_get asset_id (token_id_to_outcome b),
                key_get asset_id (token_id_to_slug b) with
          | Some on, Some sl =>
              match nonempty on, nonempty sl with
              | Some o, Some slug =>
                  match py_float price_str with
                  | None => (b, false)
                  | Some price =>
                      if Qltb 0 price
                      then (feed_price_to_detector (count_update b) o slug price now,
                            false)
                      else process_nested b data now
                  end
              | _, _ => process_nested b data now
              end
          | _, _ => (b, true)
          end
        else process_nested b data now
    | _ => (b, true)
    end
  else process_nested b data now.

(** [_process_message(data)]. *)
Definition process_message (b : WsBot) (data : list (string * pyval))
    (now : timestamp) : WsBot * bool :=
  match py_get data "event_type" (PStr EmptyString) with
  | PStr et =>
      if String.eqb et "book" then process_book_event b data now
      else if String.eqb et "price_change" then process_price_change b data now
      else if String.eqb et "last_trade_price" then (b, false)
      else (count_dropped b, false)
  | _ => (count_dropped b, false)
  end.

(** A decoded frame of [_run_websocket]: a list's dict items are processed
    in order, a dict is processed, anything else is ignored.  An exception
    ends the frame (and the connection). *)
Fixpoint process_items (b : WsBot) (items : list pyval) (now : timestamp)
  : WsBot * bool :=
  match items with
  | [] => (b, false)
  | PDict kvs :: rest =>
      let '(b1, raised) := process_message b kvs now in
      if raised then (b1, true) else process_items b1 rest now
  | _ :: rest => process_items b rest now
  end.

Definition process_frame (b : WsBot) (msg : pyval) (now : timestamp)
  : WsBot * bool :=
  match msg with
  | PList items => process_items b items now
  | PDict kvs => process_message b kvs now
  | _ => (b, false)
  end.

(** The frames received over a session, each with its arrival time; after
    an exception the loop reconnects and the next frame is processed. *)
Fixpoint ws_session (b : WsBot) (frames : list (pyval * timestamp)) : WsBot :=
  match frames with
  | [] => b
  | (msg, now) :: rest => ws_session (fst (process_frame b msg now)) rest
  end.

End WsHandlers.

(** [Market] (src/polymarket.py); outcomes reuse [MarketOutcome]. *)
Record Market := mkMarket {
  condition_id : string;
  question : string;
  m_outcomes : list MarketOutcome;
  neg_risk_market_id : string;
  event_slug : string
}.

(** [getattr(market, "event_slug", market.condition_id)]: the dataclass
    always has [event_slug]. *)
Definition market_slug (m : Market) : string := event_slug m.

(** The mapping loop of [_subscribe_to_markets]: the two token maps and
    [all_token_ids]. *)
Definition token_maps (markets : list Market)
  : list (string * string) * list (string * string) * list string :=
  fold_left
    (fun acc market =>
       let slug := market_slug market in
       fold_left
         (fun '(to_o, to_s, ids) mo =>
            if String.eqb (mo_token_id mo) EmptyString then (to_o, to_s, ids)
            else (assoc_set (mo_token_id mo) (outcome mo) to_o,
                  assoc_set (mo_token_id mo) slug to_s,
                  ids ++ [mo_token_id mo]))
         (m_outcomes market) acc)
    markets ([], [], []).

(** [_subscribe_to_markets(ws, markets)]: both maps are cleared and
    rebuilt; the second component is the [assets_ids] list sent, [None]
    when nothing is sent. *)
Definition subscribe_to_markets (b : WsBot) (markets : list Market)
  : WsBot * option (list string) :=
  let '(to_o, to_s, ids) := token_maps markets in
  ({| market_detectors := market_detectors b; token_id_to_outcome := to_o;
      token_id_to_slug := to_s; budget_remaining := budget_remaining b;
      update_count := update_count b; dropped_count := dropped_count b;
      last_signal_time := last_signal_time b |},
   match ids with [] => None | _ => Some ids end).

(** Reconnection delays of [_run_websocket], in seconds. *)
Definition RECONNECT_DELAY : Z := 1.
Definition MAX_RECONNECT_DELAY : Z := 60.

(** The sleeps of the [_run_websocket] loop, one per iteration that ends in
    a reconnect; each iteration is [true] when [ws_connect] succeeded
    (which resets [delay]) and [false] when connecting failed. *)
Fixpoint reconnect_delays (delay : Z) (attempts : list bool) : list Z :=
  match attempts with
  | [] => []
  | connected :: rest =>
      let delay := if connected then RECONNECT_DELAY else delay in
      delay :: reconnect_delays (Z.min (delay * 2) MAX_RECONNECT_DELAY) rest
  end.

(** Index of the last successful connection in a list of attempts. *)
Fixpoint last_connect (attempts : list bool) : option nat :=
  match attempts with
  | [] => None
  | c :: rest =>
      match last_connect rest with
      | Some j => Some (S j)
      | None => if c then Some 0%nat else None
      end
  end.

(** ** Proof tools *)

Ltac split_matches :=
  repeat match goal with
  | H : context [match ?x with _ => _ end] |- _ =>
      let E := fresh "E" in destruct x eqn:E
  | |- context [match ?x with _ => _ end] =>
      let E := fresh "E" in destruct x eqn:E
  end.

Ltac split_matches_in H :=
  repeat match type of H with
  | context [match ?x with _ => _ end] =>
      let E := fresh "E" in destruct x eqn:E
  end.

Lemma deque_append_length (maxlen : nat) (h : list Q) (x : Q) :
  length (deque_append maxlen h x) = Nat.min (S (length h)) maxlen.
Proof.
  unfold deque_append. rewrite length_skipn, length_app. cbn [length]. lia.
Qed.

Lemma deque_append_below (maxlen : nat) (h : list Q) (x : Q) :
  (length h < maxlen)%nat -> deque_append maxlen h x = h ++ [x].
Proof.
  intro H. unfold deque_append.
  replace (length (h ++ [x]) - maxlen)%nat with 0%nat
    by (rewrite length_app; simpl; lia).
  reflexivity.
Qed.

Lemma deque_append_full (maxlen : nat) (h : list Q) (x : Q) :
  (0 < maxlen)%nat -> length h = maxlen -> deque_append maxlen h x = tl h ++ [x].
Proof.
  intros H0 H. unfold deque_append.
  replace (length (h ++ [x]) - maxlen)%nat with 1%nat
    by (rewrite length_app; simpl; lia).
  destruct h; [simpl in H; lia|reflexivity].
Qed.

Lemma deque_append_last (maxlen : nat) (h : list Q) (x : Q) :
  (0 < maxlen)%nat -> last (deque_append maxlen h x) 0 = x.
Proof.
  intro H. unfold deque_append.
  assert (Hlt : (length (h ++ [x]) - maxlen < length (h ++ [x]))%nat)
    by (rewrite length_app; simpl; lia).
  revert Hlt. generalize (length (h ++ [x]) - maxlen)%nat as k.
  induction h as [|a h IH]; intros k Hk.
  - simpl in *. destruct k; [reflexivity|lia].
  - destruct k as [|k].
    + apply last_last.
    + simpl. apply IH. simpl in Hk. lia.
Qed.

(** ** History of an outcome *)

(** C9: [update_price] keeps [price_history] within 60 entries: below
    capacity it appends, at capacity it evicts exactly the oldest entry; the
    new price is both [current_price] and the last history entry. *)
Theorem update_price_history_fifo (s : OutcomeState) (p : Q)
    (ts : option timestamp) (now : timestamp) :
  (length (price_history s) <= HISTORY_MAXLEN)%nat ->
  let s' := update_price s p ts now in
  (length (price_history s') <= HISTORY_MAXLEN)%nat /\
  price_history s' =
    (if (length (price_history s) <? HISTORY_MAXLEN)%nat
     then price_history s ++ [p]
     else tl (price_history s) ++ [p]) /\
  current_price s' = Some p /\
  last (price_history s') 0 = p.
Proof.
  intros Hlen s'. subst s'. simpl.
  split; [|split; [|split]].
  - rewrite deque_append_length. lia.
  - destruct (Nat.ltb_spec (length (price_history s)) HISTORY_MAXLEN).
    + apply deque_append_below; assumption.
    + apply deque_append_full; unfold HISTORY_MAXLEN in *; lia.
  - reflexivity.
  - apply deque_append_last. unfold HISTORY_MAXLEN. lia.
Qed.

Definition full_history_state : OutcomeState :=
  fold_left (fun s p => update_price s p None 0%Z)
    (repeat (20 # 100) 59) 
    (OutcomeState_set_baseline (new_OutcomeState "X" "tok" None) (10 # 100)).

Lemma update_price_history_fifo_witness :
  (length (price_history full_history_state) <= HISTORY_MAXLEN)%nat /\
  price_history (update_price full_history_state (30 # 100) None 1%Z)
    = repeat (20 # 100) 59 ++ [30 # 100].
Proof.
  assert (H : (length (price_history full_history_state) <= HISTORY_MAXLEN)%nat)
    by (vm_compute; lia).
  split; [exact H|].
  destruct (update_price_history_fifo full_history_state (30 # 100) None 1%Z H)
    as [_ [Hh _]].
  rewrite Hh. vm_compute. reflexivity.
Defined.

(** ** Uninitialized detector *)

(** C10: before [set_baseline], [update_prices] returns [[]] and leaves the
    detector exactly as it was. *)
Theorem update_prices_uninitialized (stdev : list Q -> Q)
    (d : MovementDetector) (mos : list MarketOutcome) (now : timestamp) :
  baseline_set d = false -> update_prices stdev d mos now = ([], d).
Proof.
  intro H. unfold update_prices. rewrite H. reflexivity.
Qed.

Lemma update_prices_uninitialized_witness :
  baseline_set default_MovementDetector = false /\
  update_prices stdev_q default_MovementDetector [quote "X" (40 # 100)] 5%Z
    = ([], default_MovementDetector).
Proof.
  split; [reflexivity|].
  apply update_prices_uninitialized. reflexivity.
Defined.

(** ** Z-score *)

(** C5: with a baseline and at least 5 prices, a history whose standard
    deviation is below 0.001 gives exactly +10.0 / -10.0 / 0.0 according to
    the change from baseline, and otherwise the change over the standard
    deviation. *)
Theorem get_zscore_saturation (stdev : list Q -> Q) (s : OutcomeState)
    (b c : Q) :
  baseline_price s = Some b -> current_price s = Some c ->
  (5 <= length (price_history s))%nat ->
  let sd := stdev (price_history s) in
  (sd < 1 # 1000 -> 5 # 100 < c - b -> get_zscore stdev s = Some 10) /\
  (sd < 1 # 1000 -> c - b < - (5 # 100) -> get_zscore stdev s = Some (-10)) /\
  (sd < 1 # 1000 -> Qabs (c - b) <= 5 # 100 -> get_zscore stdev s = Some 0) /\
  (1 # 1000 <= sd -> get_zscore stdev s = Some ((c - b) / sd)).
Proof.
  intros Hb Hc Hlen sd.
  unfold get_zscore. rewrite Hb, Hc.
  replace ((length (price_history s) <? 5)%nat) with false
    by (symmetry; apply Nat.ltb_ge; exact Hlen).
  fold sd.
  split; [|split; [|split]]; intros Hsd.
  - apply Qltb_iff in Hsd. rewrite Hsd. intro Hch.
    assert (Habs : Qltb (5 # 100) (Qabs (c - b)) = true).
    { assert (H0 : 0 < c - b)
        by (apply Qlt_trans with (5 # 100); [reflexivity|exact Hch]).
      apply Qltb_iff. rewrite Qabs_pos; [exact Hch|].
      apply Qlt_le_weak. exact H0. }
    rewrite Habs.
    assert (Hpos : Qltb 0 (c - b) = true).
    { apply Qltb_iff, Qlt_trans with (5 # 100); [reflexivity|exact Hch]. }
    rewrite Hpos. reflexivity.
  - apply Qltb_iff in Hsd. rewrite Hsd. intro Hch.
    assert (Hneg : c - b < 0).
    { apply Qlt_trans with (- (5 # 100)); [exact Hch|reflexivity]. }
    assert (Habs : Qltb (5 # 100) (Qabs (c - b)) = true).
    { apply Qltb_iff. rewrite Qabs_neg; [|apply Qlt_le_weak; exact Hneg].
      apply Qopp_lt_compat in Hch. rewrite Qopp_involutive in Hch.
      exact Hch. }
    rewrite Habs.
    assert (Hnp : Qltb 0 (c - b) = false).
    { apply Qltb_false_iff, Qlt_le_weak. exact Hneg. }
    rewrite Hnp. reflexivity.
  - apply Qltb_iff in Hsd. rewrite Hsd. intro Hch.
    assert (Habs : Qltb (5 # 100) (Qabs (c - b)) = false)
      by (apply Qltb_false_iff; exact Hch).
    rewrite Habs. reflexivity.
  - assert (Hnot : Qltb sd (1 # 1000) = false)
      by (apply Qltb_false_iff; exact Hsd).
    rewrite Hnot. reflexivity.
Qed.

(** A flat history of five equal prices: its standard deviation is 0. *)
Definition flat_state : OutcomeState :=
  fold_left (fun s p => update_price s p None 0%Z)
    [10 # 100; 10 # 100; 10 # 100; 10 # 100]
    (OutcomeState_set_baseline (new_OutcomeState "X" "tok" None) (10 # 100)).

Lemma get_zscore_saturation_witness :
  stdev_q (price_history flat_state) == 0 /\
  get_zscore stdev_q flat_state = Some 0.
Proof.
  split; [reflexivity|].
  destruct (get_zscore_saturation stdev_q flat_state (10 # 100) (10 # 100)
              eq_refl eq_refl ltac:(vm_compute; lia)) as [_ [_ [H _]]].
  apply H.
  - apply Qltb_iff. reflexivity.
  - apply Qle_bool_iff. reflexivity.
Defined.

(** State after [set_baseline(p0)] followed by [update_price] calls. *)
Definition after_updates (s0 : OutcomeState) (p0 : Q)
    (ps : list (Q * option timestamp * timestamp)) : OutcomeState :=
  fold_left (fun s '(p, ts, now) => update_price s p ts now) ps
    (OutcomeState_set_baseline s0 p0).

Lemma fold_update_history_length (s : OutcomeState) ps :
  (length (price_history s) <= HISTORY_MAXLEN)%nat ->
  length (price_history
    (fold_left (fun s '(p, ts, now) => update_price s p ts now) ps s))
  = Nat.min (length (price_history s) + length ps) HISTORY_MAXLEN.
Proof.
  revert s. induction ps as [|[[p ts] now] ps IH]; intros s Hs.
  - simpl. lia.
  - simpl. rewrite IH; simpl; rewrite deque_append_length;
      unfold HISTORY_MAXLEN in *; lia.
Qed.

Lemma after_updates_history_length (s0 : OutcomeState) (p0 : Q) ps :
  length (price_history (after_updates s0 p0 ps))
    = Nat.min (S (length ps)) HISTORY_MAXLEN.
Proof.
  unfold after_updates. rewrite fold_update_history_length; simpl;
    unfold HISTORY_MAXLEN; lia.
Qed.

Definition test_state : OutcomeState := new_OutcomeState "Test" "abc" None.

Definition four_updates : list (Q * option timestamp * timestamp) :=
  repeat (10 # 100, None, 0%Z) 4.

(** C6 (counterexample): [set_baseline(0.10)] followed by four
    [update_price(0.10)] calls, i.e. four observations since the baseline
    was set, already yields a z-score: the baseline seed counts as the fifth
    history entry (the repository's test_get_zscore_requires_min_data). *)
Lemma get_zscore_four_updates_not_none :
  length four_updates = 4%nat /\
  get_zscore stdev_q (after_updates test_state (10 # 100) four_updates)
    = Some 0.
Proof. split; vm_compute; reflexivity. Qed.

Lemma fold_update_prices_set (s : OutcomeState) (b : Q) ps :
  baseline_price s = Some b -> current_price s <> None ->
  let s' := fold_left (fun s '(p, ts, now) => update_price s p ts now) ps s in
  baseline_price s' = Some b /\ current_price s' <> None.
Proof.
  revert s. induction ps as [|[[p ts] now] ps IH]; intros s Hb Hc; simpl.
  - split; assumption.
  - apply IH; simpl; [exact Hb|discriminate].
Qed.

(** C6 (amended): [get_zscore] is [None] whenever the history holds fewer
    than 5 prices or no baseline is set; as [set_baseline] seeds the history
    with the baseline price, this is the case after at most 3 [update_price]
    calls since the last [set_baseline], and after 4 or more such calls the
    z-score is always defined. *)
Theorem get_zscore_floor (stdev : list Q -> Q) (s : OutcomeState)
    (s0 : OutcomeState) (p0 : Q) (ps : list (Q * option timestamp * timestamp)) :
  ((length (price_history s) < 5)%nat \/ baseline_price s = None ->
   get_zscore stdev s = None) /\
  ((length ps < 4)%nat ->
   get_zscore stdev (after_updates s0 p0 ps) = None) /\
  ((4 <= length ps)%nat ->
   get_zscore stdev (after_updates s0 p0 ps) <> None).
Proof.
  assert (Hgen : forall s, (length (price_history s) < 5)%nat \/
                           baseline_price s = None ->
                           get_zscore stdev s = None).
  { intros s' [Hl|Hb]; unfold get_zscore.
    - destruct (baseline_price s'), (current_price s'); try reflexivity.
      apply Nat.ltb_lt in Hl. rewrite Hl. reflexivity.
    - rewrite Hb. reflexivity. }
  split; [apply Hgen|split].
  - intro Hps. apply Hgen. left.
    rewrite after_updates_history_length. unfold HISTORY_MAXLEN. lia.
  - intro Hps.
    assert (Hl := after_updates_history_length s0 p0 ps).
    destruct (fold_update_prices_set (OutcomeState_set_baseline s0 p0) p0 ps
                eq_refl ltac:(discriminate)) as [Hb Hc].
    fold (after_updates s0 p0 ps) in Hb, Hc.
    unfold get_zscore. rewrite Hb.
    destruct (current_price (after_updates s0 p0 ps)) as [c|];
      [|contradiction].
    replace ((length (price_history (after_updates s0 p0 ps)) <? 5)%nat)
      with false
      by (symmetry; apply Nat.ltb_ge; rewrite Hl; unfold HISTORY_MAXLEN; lia).
    destruct (Qltb _ (1 # 1000)); [destruct (Qltb (5 # 100) _);
      [destruct (Qltb 0 _)|]|]; discriminate.
Qed.

Lemma get_zscore_floor_witness :
  get_zscore stdev_q test_state = None /\
  get_zscore stdev_q
    (after_updates test_state (10 # 100) (repeat (10 # 100, None, 0%Z) 3))
    = None /\
  get_zscore stdev_q
    (after_updates test_state (10 # 100) (repeat (12 # 100, None, 0%Z) 4))
    <> None.
Proof.
  destruct (get_zscore_floor stdev_q test_state test_state (10 # 100)
              (repeat (10 # 100, None, 0%Z) 3)) as [H1 [H2 _]].
  destruct (get_zscore_floor stdev_q test_state test_state (10 # 100)
              (repeat (12 # 100, None, 0%Z) 4)) as [_ [_ H3]].
  split; [|split].
  - apply H1. right. reflexivity.
  - apply H2. simpl. lia.
  - apply H3. simpl. lia.
Defined.

(** ** Trigger policy *)

(** C7: a signal from [_check_trigger] has a signed price change of at
    least [min_price_change], hence an absolute change of at least it. *)
Theorem check_trigger_min_move (stdev : list Q -> Q) (d : MovementDetector)
    (s : OutcomeState) (now : timestamp) (sg : MovementSignal)
    (d' : MovementDetector) (s' : OutcomeState) :
  check_trigger stdev d s now = (Some sg, d', s') ->
  exists b c,
    baseline_price s = Some b /\ current_price s = Some c /\
    sig_price_change sg = c - b /\
    min_price_change d <= sig_price_change sg /\
    min_price_change d <= Qabs (c - b).
Proof.
  unfold check_trigger, get_price_change. intro H.
  split_matches; try discriminate; inversion H; subst; clear H;
  match goal with
  | Eb : baseline_price s = Some ?b, Ec : current_price s = Some ?c,
    Em : Qltb (?c - ?b) (min_price_change d) = false |- _ =>
      apply Qltb_false_iff in Em;
      exists b, c; cbn [sig_price_change];
      split; [reflexivity|split; [reflexivity|split; [reflexivity|split]]];
      [exact Em|apply Qle_trans with (c - b); [exact Em|apply Qle_Qabs]]
  end.
Qed.

(** Eight quotes after a 0.10 baseline: seven at 0.10, then 0.40.  The
    sample variance of the nine prices is 0.01, so the standard deviation is
    exactly 0.1 and the z-score exactly 3. *)
Definition jump_updates : list (Q * option timestamp * timestamp) :=
  repeat (10 # 100, None, 0%Z) 7 ++ [(40 # 100, None, 1%Z)].

Definition jump_state : OutcomeState :=
  after_updates (new_OutcomeState "X" "tokX" None) (10 # 100) jump_updates.

Lemma check_trigger_min_move_witness :
  exists sg d' s',
    check_trigger stdev_q default_MovementDetector jump_state 2%Z
      = (Some sg, d', s') /\
    min_price_change default_MovementDetector <= sig_price_change sg.
Proof.
  destruct (check_trigger stdev_q default_MovementDetector jump_state 2%Z)
    as [[[sg|] d'] s'] eqn:E.
  - exists sg, d', s'. split; [reflexivity|].
    destruct (check_trigger_min_move _ _ _ _ _ _ _ E)
      as (b & c & _ & _ & _ & H & _).
    exact H.
  - vm_compute in E. discriminate.
Defined.

(** ** Best mover *)

(** Two outcomes X and Y quoted identically: baseline 0.10, seven ticks at
    0.10, so the next tick at 0.40 gives both the z-score 3. *)
Definition tie_detector : MovementDetector :=
  snd (run stdev_q
         (set_baseline default_MovementDetector
            [quote "X" (10 # 100); quote "Y" (10 # 100)] 0%Z)
         (repeat (tick ["X"; "Y"]%string (10 # 100) 1%Z) 7)).

Definition tie_tick : list MarketOutcome :=
  [quote "X" (40 # 100); quote "Y" (40 # 100)].

(** C1 (counterexample): X and Y tie for the highest z-score (3, with the
    exact standard deviation 0.1), yet [update_prices] emits a signal for X,
    the first of them in the [outcomes] dict. *)
Lemma update_prices_tie_emits_first :
  let '(sigs, d') := update_prices stdev_q tie_detector tie_tick 2%Z in
  map sig_outcome_name sigs = ["X"%string] /\
  map (fun '(n, st) => (n, option_map Qred (get_zscore stdev_q st)))
      (outcomes d')
    = [("X"%string, Some 3); ("Y"%string, Some 3)] /\
  map (fun '(n, st) => (Qred (sample_variance (price_history st)),
                        Qred (stdev_q (price_history st))))
      (outcomes d')
    = [(1 # 100, 1 # 10); (1 # 100, 1 # 10)].
Proof. vm_compute. split; [reflexivity|split; reflexivity]. Qed.

Section BestMover.

Variable stdev : list Q -> Q.

(** Every z-score of the entries of [l] is below [bz]. *)
Definition all_le (l : outcome_map) (bz : Q) : Prop :=
  forall n st z, In (n, st) l -> get_zscore stdev st = Some z -> z <= bz.

Definition all_lt (l : outcome_map) (bz : Q) : Prop :=
  forall n st z, In (n, st) l -> get_zscore stdev st = Some z -> z < bz.

Definition find_best_inv (l : outcome_map)
    (r : option (string * OutcomeState) * Q) : Prop :=
  match r with
  | (None, bz) => bz = 0 /\ all_le l bz
  | (Some (n, st), bz) =>
      exists pre post, l = pre ++ (n, st) :: post /\
        get_zscore stdev st = Some bz /\ 0 < bz /\
        all_lt pre bz /\ all_le post bz
  end.

Lemma all_le_app (l1 l2 : outcome_map) (bz : Q) :
  all_le l1 bz -> all_le l2 bz -> all_le (l1 ++ l2) bz.
Proof.
  intros H1 H2 n st z Hin. apply in_app_or in Hin as [Hin|Hin]; eauto.
Qed.

Lemma all_le_one (n : string) (st : OutcomeState) (bz : Q) :
  (forall z, get_zscore stdev st = Some z -> z <= bz) -> all_le [(n, st)] bz.
Proof.
  intros H n' st' z [Heq|[]] Hz. inversion Heq; subst. auto.
Qed.

Lemma all_le_lt (l : outcome_map) (bz z : Q) :
  all_le l bz -> bz < z -> all_lt l z.
Proof.
  intros H Hlt n st z' Hin Hz. apply Qle_lt_trans with bz; eauto.
Qed.

Lemma find_best_spec (m : outcome_map) : find_best_inv m (find_best stdev m).
Proof.
  induction m as [|[n st] m IH] using rev_ind.
  - simpl. split; [reflexivity|]. intros n st z [].
  - unfold find_best in *. rewrite fold_left_app. simpl.
    destruct (fold_left _ m (None, 0)) as [[[bn bst]|] bz] eqn:Ef.
    + destruct IH as (pre & post & Hm & Hz & Hpos & Hlt & Hle).
      destruct (get_zscore stdev st) as [z|] eqn:Ezs.
      * destruct (Qltb bz z) eqn:Ec.
        -- apply Qltb_iff in Ec. exists m, []. split; [reflexivity|].
           split; [exact Ezs|]. split; [apply Qlt_trans with bz; assumption|].
           split; [|intros ? ? ? []].
           subst m. intros n' st' z' Hin Hz'.
           apply in_app_or in Hin as [Hin|[Heq|Hin]].
           ++ apply Qlt_trans with bz; eauto.
           ++ inversion Heq; subst. rewrite Hz in Hz'. inversion Hz'; subst.
              exact Ec.
           ++ apply Qle_lt_trans with bz; eauto.
        -- apply Qltb_false_iff in Ec. exists pre, (post ++ [(n, st)]).
           split; [subst m; rewrite <- app_assoc; reflexivity|].
           repeat split; try assumption.
           apply all_le_app; [assumption|].
           apply all_le_one. intros z' Hz'. rewrite Ezs in Hz'.
           inversion Hz'; subst. exact Ec.
      * exists pre, (post ++ [(n, st)]).
        split; [subst m; rewrite <- app_assoc; reflexivity|].
        repeat split; try assumption.
        apply all_le_app; [assumption|].
        apply all_le_one. intros z' Hz'. congruence.
    + destruct IH as [Hbz Hle]. subst bz.
      destruct (get_zscore stdev st) as [z|] eqn:Ezs.
      * destruct (Qltb 0 z) eqn:Ec.
        -- apply Qltb_iff in Ec. exists m, []. split; [reflexivity|].
           split; [exact Ezs|]. split; [exact Ec|]. split; [|intros ? ? ? []].
           apply all_le_lt with 0; assumption.
        -- apply Qltb_false_iff in Ec. split; [reflexivity|].
           apply all_le_app; [assumption|].
           apply all_le_one. intros z' Hz'. rewrite Ezs in Hz'.
           inversion Hz'; subst. exact Ec.
      * split; [reflexivity|].
        apply all_le_app; [assumption|].
        apply all_le_one. intros z' Hz'. congruence.
Qed.

Lemma check_trigger_signal_fields (d : MovementDetector) (s : OutcomeState)
    (now : timestamp) (sg : MovementSignal) d' s' :
  check_trigger stdev d s now = (Some sg, d', s') ->
  sig_outcome_name sg = outcome_name s /\
  get_zscore stdev s = Some (sig_zscore sg).
Proof.
  unfold check_trigger. intro H.
  split_matches; try discriminate; inversion H; subst; split; reflexivity.
Qed.

End BestMover.

(** C1 (amended): with the baseline set, one [update_prices] call emits at
    most one signal; a signal is for the first entry of the [outcomes] dict
    (after the tick's price updates) whose z-score is strictly positive and
    at least every other z-score: entries before it score strictly lower,
    entries after it score at most as much (so ties go to the earlier
    entry), and entries with no z-score or a non-positive one are never
    chosen. *)
Theorem update_prices_best_mover (stdev : list Q -> Q) (d : MovementDetector)
    (mos : list MarketOutcome) (now : timestamp)
    (sigs : list MovementSignal) (d' : MovementDetector) :
  baseline_set d = true ->
  update_prices stdev d mos now = (sigs, d') ->
  (length sigs <= 1)%nat /\
  forall sg, In sg sigs ->
    exists pre name st post,
      update_all_prices (outcomes d) mos now = pre ++ (name, st) :: post /\
      sig_outcome_name sg = outcome_name st /\
      get_zscore stdev st = Some (sig_zscore sg) /\
      0 < sig_zscore sg /\
      all_lt stdev pre (sig_zscore sg) /\
      all_le stdev post (sig_zscore sg).
Proof.
  intros Hb H. unfold update_prices in H. rewrite Hb in H. simpl in H.
  pose proof (find_best_spec stdev (update_all_prices (outcomes d) mos now))
    as Hspec.
  destruct (find_best stdev (update_all_prices (outcomes d) mos now))
    as [[[n st]|] bz] eqn:Ef; simpl in H.
  - destruct Hspec as (pre & post & Hm & Hz & Hpos & Hlt & Hle).
    destruct (check_trigger stdev _ st now) as [[[sg|] d2] st'] eqn:Ec;
      inversion H; subst; clear H.
    + split; [simpl; lia|].
      intros sg' [<-|[]].
      destruct (check_trigger_signal_fields stdev _ _ _ _ _ _ Ec)
        as [Hname Hzs].
      rewrite Hz in Hzs. inversion Hzs; subst.
      exists pre, n, st, post. repeat split; assumption.
    + split; [simpl; lia|]. intros _ [].
  - inversion H; subst. split; [simpl; lia|]. intros _ [].
Qed.

Lemma update_prices_best_mover_witness :
  baseline_set tie_detector = true /\
  (length (fst (update_prices stdev_q tie_detector tie_tick 2%Z)) <= 1)%nat.
Proof.
  assert (Hb : baseline_set tie_detector = true) by reflexivity.
  split; [exact Hb|].
  destruct (update_prices stdev_q tie_detector tie_tick 2%Z) as [sigs d'] eqn:E.
  destruct (update_prices_best_mover stdev_q tie_detector tie_tick 2%Z sigs d'
              Hb E) as [H _].
  exact H.
Defined.

(** ** The outcomes dict *)

Lemma dict_get_set (k k' : string) (v : OutcomeState) (m : outcome_map) :
  dict_get k' (dict_set k v m) =
  if String.eqb k' k then Some v else dict_get k' m.
Proof.
  induction m as [|[k0 v0] m IH]; simpl.
  - reflexivity.
  - destruct (String.eqb k k0) eqn:E1.
    + apply String.eqb_eq in E1. subst k0. simpl.
      destruct (String.eqb k' k); reflexivity.
    + simpl. rewrite IH.
      destruct (String.eqb k' k0) eqn:E2; [|reflexivity].
      apply String.eqb_eq in E2. subst k0.
      destruct (String.eqb k' k) eqn:E3; [|reflexivity].
      apply String.eqb_eq in E3. subst. rewrite String.eqb_refl in E1.
      discriminate.
Qed.

Lemma dict_set_keys_in (k x : string) (v : OutcomeState) (m : outcome_map) :
  In x (map fst (dict_set k v m)) -> x = k \/ In x (map fst m).
Proof.
  induction m as [|[k0 v0] m IH]; simpl.
  - intros [H|[]]. left. symmetry. exact H.
  - destruct (String.eqb k k0); simpl; intros [H|H]; auto.
    destruct (IH H); auto.
Qed.

Lemma dict_set_nodup (k : string) (v : OutcomeState) (m : outcome_map) :
  NoDup (map fst m) -> NoDup (map fst (dict_set k v m)).
Proof.
  induction m as [|[k0 v0] m IH]; simpl; intro Hnd.
  - constructor; [intros []|constructor].
  - inversion Hnd as [|? ? Hnin Hnd']; subst.
    destruct (String.eqb k k0) eqn:E; simpl.
    + constructor; assumption.
    + constructor; [|apply IH; assumption].
      intro Hin. apply dict_set_keys_in in Hin as [Heq|Hin].
      * subst. rewrite String.eqb_refl in E. discriminate.
      * contradiction.
Qed.

(** Every entry of the dict is stored under its own outcome name. *)
Definition names_match (m : outcome_map) : Prop :=
  Forall (fun e => outcome_name (snd e) = fst e) m.

Definition wf_outcomes (m : outcome_map) : Prop :=
  NoDup (map fst m) /\ names_match m.

Lemma dict_set_names (k : string) (v : OutcomeState) (m : outcome_map) :
  outcome_name v = k -> names_match m -> names_match (dict_set k v m).
Proof.
  unfold names_match. intros Hv. induction m as [|[k0 v0] m IH]; simpl; intro H.
  - constructor; [exact Hv|constructor].
  - apply Forall_cons_iff in H as [Hh Ht].
    destruct (String.eqb k k0) eqn:E.
    + apply String.eqb_eq in E. constructor; [simpl; rewrite <- E; exact Hv|].
      exact Ht.
    + constructor; [exact Hh|apply IH; exact Ht].
Qed.

Lemma dict_set_wf (k : string) (v : OutcomeState) (m : outcome_map) :
  outcome_name v = k -> wf_outcomes m -> wf_outcomes (dict_set k v m).
Proof.
  intros Hv [Hnd Hn]. split.
  - apply dict_set_nodup. exact Hnd.
  - apply dict_set_names; assumption.
Qed.

Lemma dict_get_in (k : string) (v : OutcomeState) (m : outcome_map) :
  dict_get k m = Some v -> In (k, v) m.
Proof.
  induction m as [|[k0 v0] m IH]; simpl; [discriminate|].
  destruct (String.eqb k k0) eqn:E.
  - apply String.eqb_eq in E. subst. intro H. inversion H. left. reflexivity.
  - intro H. right. apply IH. exact H.
Qed.

Lemma in_dict_get (k : string) (v : OutcomeState) (m : outcome_map) :
  NoDup (map fst m) -> In (k, v) m -> dict_get k m = Some v.
Proof.
  induction m as [|[k0 v0] m IH]; simpl; [intros _ []|].
  intros Hnd [Heq|Hin]; inversion Hnd as [|? ? Hnin Hnd']; subst.
  - inversion Heq; subst. rewrite String.eqb_refl. reflexivity.
  - destruct (String.eqb k k0) eqn:E.
    + apply String.eqb_eq in E. subst. exfalso. apply Hnin.
      apply (in_map fst) in Hin. exact Hin.
    + apply IH; assumption.
Qed.

Lemma wf_get_name (k : string) (v : OutcomeState) (m : outcome_map) :
  wf_outcomes m -> dict_get k m = Some v -> outcome_name v = k.
Proof.
  intros [_ Hn] H. apply dict_get_in in H.
  unfold names_match in Hn. rewrite Forall_forall in Hn.
  apply Hn in H. exact H.
Qed.

(** ** What one [_check_trigger] call changes *)

Section CheckTrigger.

Variable stdev : list Q -> Q.

Lemma check_trigger_spec (d : MovementDetector) (s : OutcomeState)
    (now : timestamp) osg d2 s' :
  check_trigger stdev d s now = (osg, d2, s') ->
  outcomes d2 = outcomes d /\
  scale_in_pcts d2 = scale_in_pcts d /\
  baseline_set d2 = baseline_set d /\
  outcome_name s' = outcome_name s /\
  (forall o, locked_outcome d = Some o -> locked_outcome d2 = Some o) /\
  match osg with
  | None => s' = s /\ d2 = d
  | Some sg =>
      sig_outcome_name sg = outcome_name s /\
      trigger_number sg = S (trigger_count s) /\
      trigger_count s' = S (trigger_count s) /\
      nth_error (scale_in_pcts d) (trigger_count s) = Some (budget_pct sg) /\
      locked_outcome d2 = Some (outcome_name s) /\
      (locked_outcome d = None \/ locked_outcome d = Some (outcome_name s))
  end.
Proof.
  unfold check_trigger. intro H.
  split_matches_in H; inversion H; subst; clear H;
    repeat split; try reflexivity; simpl; auto;
  repeat match goal with
  | Hn : negb (String.eqb _ _) = false |- _ =>
      apply negb_false_iff, String.eqb_eq in Hn; subst
  end;
  try match goal with
  | Hl : (length _ <? _)%nat = false |- nth_error _ _ = _ =>
      apply Nat.ltb_ge in Hl; rewrite Nat.sub_0_r; apply nth_error_nth'; lia
  | |- forall o, None = Some o -> _ => intros o Ho; discriminate
  end; auto.
Qed.

End CheckTrigger.

(** ** Lock *)

Section Lock.

Variable stdev : list Q -> Q.

Lemma update_prices_lock (d : MovementDetector) (mos : list MarketOutcome)
    (now : timestamp) :
  let '(sigs, d1) := update_prices stdev d mos now in
  (forall o, locked_outcome d = Some o -> locked_outcome d1 = Some o) /\
  (forall sg, In sg sigs -> locked_outcome d1 = Some (sig_outcome_name sg)).
Proof.
  unfold update_prices.
  destruct (baseline_set d); simpl; [|split; [auto|intros _ []]].
  destruct (find_best stdev (update_all_prices (outcomes d) mos now))
    as [[[n st]|] bz]; simpl; [|split; [auto|intros _ []]].
  destruct (check_trigger stdev _ st now) as [[osg d2] st'] eqn:Ec.
  apply check_trigger_spec in Ec as (_ & _ & _ & _ & Hmono & Hsg).
  destruct osg as [sg|]; simpl in *.
  - destruct Hsg as (Hname & _ & _ & _ & Hlock & _).
    split; [exact Hmono|]. intros sg' [<-|[]]. rewrite Hname. exact Hlock.
  - destruct Hsg as [_ ->]. split; [auto|intros _ []].
Qed.

Lemma step_lock (d : MovementDetector) (op : detector_op) :
  is_reset op = false ->
  let '(sigs, d1) := step stdev d op in
  (forall o, locked_outcome d = Some o -> locked_outcome d1 = Some o) /\
  (forall sg, In sg sigs -> locked_outcome d1 = Some (sig_outcome_name sg)).
Proof.
  destruct op as [mos now|name now|mos now|]; simpl; intro Hr.
  - apply update_prices_lock.
  - destruct (dict_get name (outcomes d)) as [st|]; [|split; [auto|intros _ []]].
    destruct (check_trigger stdev d st now) as [[osg d2] st'] eqn:Ec.
    apply check_trigger_spec in Ec as (_ & _ & _ & _ & Hmono & Hsg).
    destruct osg as [sg|]; simpl in *.
    + destruct Hsg as (Hname & _ & _ & _ & Hlock & _).
      split; [exact Hmono|]. intros sg' [<-|[]]. rewrite Hname. exact Hlock.
    + destruct Hsg as [_ ->]. split; [auto|intros _ []].
  - split; [auto|intros _ []].
  - discriminate.
Qed.

Lemma run_lock (d : MovementDetector) (ops : list detector_op) :
  forallb (fun op => negb (is_reset op)) ops = true ->
  let '(sigs, d') := run stdev d ops in
  (forall o, locked_outcome d = Some o -> locked_outcome d' = Some o) /\
  (forall sg, In sg sigs -> locked_outcome d' = Some (sig_outcome_name sg)).
Proof.
  revert d. induction ops as [|op ops IH]; intros d Hops; simpl.
  - split; [auto|intros _ []].
  - simpl in Hops. apply andb_true_iff in Hops as [Hop Hops].
    apply negb_true_iff in Hop.
    pose proof (step_lock d op Hop) as Hs.
    destruct (step stdev d op) as [s1 d1].
    specialize (IH d1 Hops).
    destruct (run stdev d1 ops) as [s2 d2].
    destruct Hs as [Hm1 Hl1]. destruct IH as [Hm2 Hl2].
    split; [auto|].
    intros sg Hin. apply in_app_or in Hin as [Hin|Hin]; auto.
Qed.

End Lock.

(** C2: between two [reset()] calls, every signal produced by any sequence
    of [update_prices], [_check_trigger] and [set_baseline] calls is for one
    and the same outcome, which is the locked outcome if one was already
    locked; [reset()] clears the lock. *)
Theorem lock_invariant (stdev : list Q -> Q) (d : MovementDetector)
    (ops : list detector_op) :
  forallb (fun op => negb (is_reset op)) ops = true ->
  let sigs := fst (run stdev d ops) in
  (forall s1 s2, In s1 sigs -> In s2 sigs ->
     sig_outcome_name s1 = sig_outcome_name s2) /\
  (forall o, locked_outcome d = Some o ->
     forall sg, In sg sigs -> sig_outcome_name sg = o) /\
  locked_outcome (reset d) = None.
Proof.
  intros Hops sigs. subst sigs.
  pose proof (run_lock stdev d ops Hops) as H.
  destruct (run stdev d ops) as [sigs d']. simpl.
  destruct H as [Hmono Hsig].
  split; [|split; [|reflexivity]].
  - intros s1 s2 H1 H2. apply Hsig in H1. apply Hsig in H2.
    rewrite H1 in H2. inversion H2. reflexivity.
  - intros o Ho sg Hin. apply Hmono in Ho. apply Hsig in Hin.
    rewrite Ho in Hin. inversion Hin. reflexivity.
Qed.

(** After X fires on the tie tick, Y alone surges; Y never fires. *)
Definition lock_ops : list detector_op :=
  [OpUpdatePrices tie_tick 2%Z;
   OpUpdatePrices [quote "X" (10 # 100); quote "Y" (60 # 100)] 3%Z;
   OpCheckTrigger "Y" 4%Z].

Lemma lock_invariant_witness :
  forallb (fun op => negb (is_reset op)) lock_ops = true /\
  (forall s1 s2, In s1 (fst (run stdev_q tie_detector lock_ops)) ->
     In s2 (fst (run stdev_q tie_detector lock_ops)) ->
     sig_outcome_name s1 = sig_outcome_name s2).
Proof.
  assert (H : forallb (fun op => negb (is_reset op)) lock_ops = true)
    by reflexivity.
  split; [exact H|].
  destruct (lock_invariant stdev_q tie_detector lock_ops H) as [H1 _].
  exact H1.
Defined.

(** ** Scale-in *)

(** [trigger_count] of the outcome tracked under [o] (0 when untracked). *)
Definition tc (m : outcome_map) (o : string) : nat :=
  match dict_get o m with Some st => trigger_count st | None => 0%nat end.

(** The signals for outcome [o], in emission order. *)
Definition sigs_for (o : string) (sigs : list MovementSignal)
  : list MovementSignal :=
  filter (fun sg => String.eqb (sig_outcome_name sg) o) sigs.

(** The [i]-th signal of [so] is trigger number [c + i + 1] and carries the
    schedule entry [c + i]. *)
Definition numbered (pcts : list Q) (c : nat) (so : list MovementSignal)
  : Prop :=
  forall i sg, nth_error so i = Some sg ->
    trigger_number sg = (c + S i)%nat /\
    nth_error pcts (c + i) = Some (budget_pct sg).

Definition opt_list {A} (o : option A) : list A :=
  match o with Some x => [x] | None => [] end.

Lemma numbered_nil (pcts : list Q) (c : nat) : numbered pcts c [].
Proof. intros [|i] sg H; discriminate. Qed.

Lemma numbered_app (pcts : list Q) (c : nat) (s1 s2 : list MovementSignal) :
  numbered pcts c s1 -> numbered pcts (c + length s1) s2 ->
  numbered pcts c (s1 ++ s2).
Proof.
  intros H1 H2 i sg Hi.
  destruct (Nat.lt_ge_cases i (length s1)) as [Hlt|Hge].
  - rewrite nth_error_app1 in Hi by exact Hlt. apply H1. exact Hi.
  - rewrite nth_error_app2 in Hi by exact Hge.
    destruct (H2 _ _ Hi) as [Ht Hp].
    replace (c + length s1 + (i - length s1))%nat with (c + i)%nat in Hp by lia.
    split; [rewrite Ht; lia|exact Hp].
Qed.

Lemma update_all_prices_preserve (m : outcome_map) (mos : list MarketOutcome)
    (now : timestamp) :
  wf_outcomes m ->
  wf_outcomes (update_all_prices m mos now) /\
  forall o, tc (update_all_prices m mos now) o = tc m o.
Proof.
  unfold update_all_prices. revert m.
  induction mos as [|mo mos IH]; intros m Hwf; simpl; [split; auto|].
  destruct (dict_get (outcome mo) m) as [st|] eqn:Eg; [|apply IH; exact Hwf].
  destruct (get_best_ask (order_book mo)) as [ask|]; [|apply IH; exact Hwf].
  set (m' := dict_set (outcome mo) (update_price st ask (Some now) now) m).
  assert (Hwf' : wf_outcomes m').
  { apply dict_set_wf; [|exact Hwf]. simpl. eapply wf_get_name; eassumption. }
  destruct (IH m' Hwf') as [Hw Ht]. split; [exact Hw|].
  intro o. rewrite Ht. unfold tc, m'. rewrite dict_get_set.
  destruct (String.eqb o (outcome mo)) eqn:Eo; [|reflexivity].
  apply String.eqb_eq in Eo. subst. rewrite Eg. reflexivity.
Qed.

Section ScaleIn.

Variable stdev : list Q -> Q.

Lemma fire_counts (d : MovementDetector) (k : string) (st : OutcomeState)
    (now : timestamp) osg d2 st' :
  wf_outcomes (outcomes d) -> dict_get k (outcomes d) = Some st ->
  check_trigger stdev d st now = (osg, d2, st') ->
  let m2 := dict_set k st' (outcomes d2) in
  wf_outcomes m2 /\ scale_in_pcts d2 = scale_in_pcts d /\
  baseline_set d2 = baseline_set d /\
  forall o,
    numbered (scale_in_pcts d) (tc (outcomes d) o) (sigs_for o (opt_list osg)) /\
    tc m2 o = (tc (outcomes d) o + length (sigs_for o (opt_list osg)))%nat.
Proof.
  intros Hwf Hg Hc m2.
  pose proof (wf_get_name _ _ _ Hwf Hg) as Hk.
  apply check_trigger_spec in Hc as (Ho & Hp & Hb & Hn & _ & Hsg).
  subst m2. rewrite Ho.
  split; [apply dict_set_wf; [congruence|exact Hwf]|].
  split; [exact Hp|]. split; [exact Hb|].
  intro o. unfold tc at 2. rewrite dict_get_set.
  destruct osg as [sg|].
  - destruct Hsg as (Hname & Hnum & Hcnt & Hpct & _).
    unfold sigs_for. simpl. rewrite Hname, Hk.
    destruct (String.eqb o k) eqn:Eo.
    + apply String.eqb_eq in Eo. subst o. rewrite String.eqb_refl.
      unfold tc. rewrite Hg. simpl. split; [|rewrite Hcnt; lia].
      intros [|i] sg' Hi; [|destruct i; discriminate].
      inversion Hi; subst. rewrite Nat.add_0_r. split; [rewrite Hnum; lia|exact Hpct].
    + assert (Eo' : String.eqb k o = false).
      { destruct (String.eqb k o) eqn:E; [|reflexivity].
        apply String.eqb_eq in E. subst. rewrite String.eqb_refl in Eo.
        discriminate. }
      rewrite Eo'. simpl. split; [apply numbered_nil|]. unfold tc. lia.
  - destruct Hsg as [-> _]. simpl. split; [apply numbered_nil|].
    destruct (String.eqb o k) eqn:Eo; [|unfold tc; lia].
    apply String.eqb_eq in Eo. subst. unfold tc. rewrite Hg. lia.
Qed.

End ScaleIn.

Section ScaleInRun.

Variable stdev : list Q -> Q.

Definition counts_inv (d d' : MovementDetector) (sigs : list MovementSignal)
  : Prop :=
  wf_outcomes (outcomes d') /\ scale_in_pcts d' = scale_in_pcts d /\
  forall o,
    numbered (scale_in_pcts d) (tc (outcomes d) o) (sigs_for o sigs) /\
    tc (outcomes d') o = (tc (outcomes d) o + length (sigs_for o sigs))%nat.

Lemma counts_inv_refl (d : MovementDetector) :
  wf_outcomes (outcomes d) -> counts_inv d d [].
Proof.
  intro Hwf. split; [exact Hwf|split; [reflexivity|]].
  intro o. split; [apply numbered_nil|simpl; lia].
Qed.

Lemma step_counts (d : MovementDetector) (op : detector_op) :
  wf_outcomes (outcomes d) -> is_trigger_attempt op = true ->
  let '(sigs, d1) := step stdev d op in counts_inv d d1 sigs.
Proof.
  intros Hwf Hop.
  destruct op as [mos now|name now|mos now|]; try discriminate; simpl.
  - unfold update_prices.
    destruct (baseline_set d); simpl; [|apply counts_inv_refl; exact Hwf].
    set (m := update_all_prices (outcomes d) mos now).
    destruct (update_all_prices_preserve (outcomes d) mos now Hwf) as [Hwm Htm].
    fold m in Hwm, Htm.
    pose proof (find_best_spec stdev m) as Hspec.
    destruct (find_best stdev m) as [[[n st]|] bz]; simpl.
    + destruct Hspec as (pre & post & Hm & _).
      assert (Hg : dict_get n (outcomes (with_outcomes d m)) = Some st).
      { apply in_dict_get; [apply Hwm|]. simpl. rewrite Hm.
        apply in_or_app. right. left. reflexivity. }
      destruct (check_trigger stdev (with_outcomes d m) st now)
        as [[osg d2] st'] eqn:Ec.
      destruct (fire_counts stdev (with_outcomes d m) n st now osg d2 st' Hwm Hg Ec)
        as (Hw2 & Hp2 & _ & Hc2).
      destruct osg as [sg|]; simpl;
        (split; [exact Hw2|split; [exact Hp2|]]);
        intro o; destruct (Hc2 o) as [Hn Ht]; simpl in Hn, Ht;
        rewrite Htm in Hn, Ht; split; assumption.
    + split; [exact Hwm|split; [reflexivity|]].
      intro o. simpl. split; [apply numbered_nil|]. rewrite Htm. lia.
  - destruct (dict_get name (outcomes d)) as [st|] eqn:Eg;
      [|apply counts_inv_refl; exact Hwf].
    destruct (check_trigger stdev d st now) as [[osg d2] st'] eqn:Ec.
    destruct (fire_counts stdev _ _ _ _ _ _ _ Hwf Eg Ec)
      as (Hw2 & Hp2 & _ & Hc2).
    split; [exact Hw2|split; [exact Hp2|exact Hc2]].
Qed.

Lemma run_counts (d : MovementDetector) (ops : list detector_op) :
  wf_outcomes (outcomes d) -> forallb is_trigger_attempt ops = true ->
  let '(sigs, d') := run stdev d ops in counts_inv d d' sigs.
Proof.
  revert d. induction ops as [|op ops IH]; intros d Hwf Hops; simpl.
  - apply counts_inv_refl. exact Hwf.
  - simpl in Hops. apply andb_true_iff in Hops as [Hop Hops].
    pose proof (step_counts d op Hwf Hop) as Hs.
    destruct (step stdev d op) as [s1 d1].
    destruct Hs as (Hw1 & Hp1 & Hc1).
    specialize (IH d1 Hw1 Hops).
    destruct (run stdev d1 ops) as [s2 d2].
    destruct IH as (Hw2 & Hp2 & Hc2).
    split; [exact Hw2|split; [congruence|]].
    intro o. destruct (Hc1 o) as [Hn1 Ht1]. destruct (Hc2 o) as [Hn2 Ht2].
    unfold sigs_for in *. rewrite filter_app, length_app.
    split; [|lia].
    apply numbered_app; [exact Hn1|]. rewrite <- Ht1, <- Hp1. exact Hn2.
Qed.

End ScaleInRun.

Lemma set_baseline_fresh (d0 : MovementDetector) (mos : list MarketOutcome)
    (now : timestamp) :
  wf_outcomes (outcomes (set_baseline (reset d0) mos now)) /\
  forall o, tc (outcomes (set_baseline (reset d0) mos now)) o = 0%nat.
Proof.
  unfold set_baseline. simpl.
  assert (Hgen : forall m, wf_outcomes m -> (forall o, tc m o = 0%nat) ->
    let m' := fold_left
      (fun m mo =>
         match get_best_ask (order_book mo) with
         | None => m
         | Some ask =>
             dict_set (outcome mo)
               (OutcomeState_set_baseline
                  (new_OutcomeState (outcome mo) (mo_token_id mo)
                     (mo_no_token_id mo)) ask) m
         end) mos m in
    wf_outcomes m' /\ forall o, tc m' o = 0%nat).
  { induction mos as [|mo mos IH]; intros m Hwf H0; simpl; [auto|].
    destruct (get_best_ask (order_book mo)) as [ask|]; apply IH; auto.
    - apply dict_set_wf; [reflexivity|exact Hwf].
    - intro o. unfold tc. rewrite dict_get_set.
      destruct (String.eqb o (outcome mo)); [reflexivity|apply H0]. }
  apply Hgen.
  - split; [constructor|constructor].
  - reflexivity.
Qed.

(** C3: in a session opened by [reset()] and [set_baseline], under any
    sequence of trigger attempts ([update_prices] and [_check_trigger]
    calls) an outcome produces at most [len(scale_in_pcts)] signals, and
    its [N]-th signal ([N = i + 1]) has [trigger_number = N] and
    [budget_pct = scale_in_pcts[N-1]]. *)
Theorem scale_in_exhaustion (stdev : list Q -> Q) (d0 : MovementDetector)
    (mos : list MarketOutcome) (now : timestamp) (ops : list detector_op) :
  forallb is_trigger_attempt ops = true ->
  let sigs := fst (run stdev (set_baseline (reset d0) mos now) ops) in
  forall o,
    (length (sigs_for o sigs) <= length (scale_in_pcts d0))%nat /\
    forall i sg, nth_error (sigs_for o sigs) i = Some sg ->
      trigger_number sg = S i /\
      nth_error (scale_in_pcts d0) i = Some (budget_pct sg).
Proof.
  intros Hops sigs o. subst sigs.
  destruct (set_baseline_fresh d0 mos now) as [Hwf H0].
  pose proof (run_counts stdev _ ops Hwf Hops) as Hr.
  destruct (run stdev (set_baseline (reset d0) mos now) ops) as [sigs d'].
  destruct Hr as (_ & _ & Hc). destruct (Hc o) as [Hn _].
  rewrite H0 in Hn. simpl fst. simpl in Hn.
  assert (Hall : forall i sg, nth_error (sigs_for o sigs) i = Some sg ->
            trigger_number sg = S i /\
            nth_error (scale_in_pcts d0) i = Some (budget_pct sg)).
  { intros i sg Hi. apply Hn in Hi. exact Hi. }
  split; [|exact Hall].
  destruct (sigs_for o sigs) as [|x l] eqn:Es using rev_ind.
  - simpl. lia.
  - destruct (Hall (length l) x) as [_ Hp].
    + rewrite nth_error_app2 by lia. rewrite Nat.sub_diag. reflexivity.
    + assert (Hlt : (length l < length (scale_in_pcts d0))%nat).
      { apply nth_error_Some. rewrite Hp. discriminate. }
      rewrite length_app. simpl. lia.
Qed.

Definition scenario_c_config : MovementDetector :=
  new_MovementDetector (15 # 10) None (95 # 100) (3 # 100).

Definition scenario_c_ops : list detector_op :=
  map (fun p => tick ["X"%string] p 1%Z) scenario_c_prices.

Lemma scale_in_exhaustion_witness :
  forallb is_trigger_attempt scenario_c_ops = true /\
  (length (sigs_for "X"
     (fst (run stdev_q (set_baseline (reset scenario_c_config)
                          [quote "X" (10 # 100)] 0%Z) scenario_c_ops)))
   <= length (scale_in_pcts scenario_c_config))%nat.
Proof.
  assert (H : forallb is_trigger_attempt scenario_c_ops = true)
    by reflexivity.
  split; [exact H|].
  destruct (scale_in_exhaustion stdev_q scenario_c_config
              [quote "X" (10 # 100)] 0%Z scenario_c_ops H "X") as [H1 _].
  exact H1.
Defined.

(** ** Budget *)

Lemma trade_amount_le (budget pct : Q) : trade_amount budget pct <= budget.
Proof.
  unfold trade_amount.
  destruct (Qltb budget (budget * (pct / 100))) eqn:E.
  - apply Qle_refl.
  - apply Qltb_false_iff in E. exact E.
Qed.

(** C4: the notional is [min(B * (p / 100), B)]; below 1.0 no order is sent
    and the budget is unchanged; when an order is sent the budget drops by
    the notional on success and is unchanged on failure; so, from a
    non-negative budget, it stays non-negative over any sequence of
    signals. *)
Theorem execute_signal_budget_contract (kind : BotKind) (cfg : BotSettings)
    (B : Q) (sg : MovementSignal) (ok : bool)
    (handled : list (MovementSignal * bool)) :
  let amount := trade_amount B (budget_pct sg) in
  let B' := fst (execute_signal kind cfg B sg ok) in
  let issued := snd (execute_signal kind cfg B sg ok) in
  ((amount == B /\ B <= B * (budget_pct sg / 100)) \/
   (amount == B * (budget_pct sg / 100) /\ B * (budget_pct sg / 100) <= B)) /\
  (amount < 1 -> issued = false /\ B' = B) /\
  (issued = false -> B' = B) /\
  (issued = true -> 1 <= amount /\ B' = if ok then B - amount else B) /\
  (skips_execution kind cfg = false -> 1 <= amount -> issued = true) /\
  (0 <= B -> 0 <= session_budget kind cfg B handled).
Proof.
  intros amount B' issued. subst B' issued.
  split; [|split; [|split; [|split; [|split]]]].
  - subst amount. unfold trade_amount.
    destruct (Qltb B (B * (budget_pct sg / 100))) eqn:E.
    + left. apply Qltb_iff in E. split; [apply Qeq_refl|apply Qlt_le_weak; exact E].
    + right. apply Qltb_false_iff in E. split; [apply Qeq_refl|exact E].
  - intro Hlt. unfold execute_signal. fold amount.
    destruct (skips_execution kind cfg); [split; reflexivity|].
    apply Qltb_iff in Hlt. rewrite Hlt. split; reflexivity.
  - unfold execute_signal. fold amount.
    destruct (skips_execution kind cfg); [reflexivity|].
    destruct (Qltb amount 1); [reflexivity|discriminate].
  - unfold execute_signal. fold amount.
    destruct (skips_execution kind cfg); [discriminate|].
    destruct (Qltb amount 1) eqn:E; [discriminate|].
    intros _. apply Qltb_false_iff in E. split; [exact E|reflexivity].
  - intros Hs Hge. unfold execute_signal. fold amount. rewrite Hs.
    replace (Qltb amount 1) with false; [reflexivity|].
    symmetry. apply Qltb_false_iff. exact Hge.
  - clear amount sg ok. revert B.
    induction handled as [|[sg ok] rest IH]; intros B HB; simpl; [exact HB|].
    apply IH. unfold execute_signal.
    destruct (skips_execution kind cfg); [exact HB|].
    destruct (Qltb (trade_amount B (budget_pct sg)) 1); [exact HB|].
    destruct ok; simpl; [|exact HB].
    pose proof (trade_amount_le B (budget_pct sg)) as Hle.
    apply Qle_minus_iff in Hle. exact Hle.
Qed.

(** Scenario E of the specification: $0.50 left, a 50% signal, no order. *)
Lemma execute_signal_budget_contract_witness :
  trade_amount (1 # 2) 50 < 1 /\
  execute_signal WebSocketBot (mkBotSettings false true) (1 # 2)
    (signal_with_pct 50) true = (1 # 2, false).
Proof.
  assert (H : trade_amount (1 # 2) 50 < 1) by (apply Qltb_iff; reflexivity).
  split; [exact H|].
  destruct (execute_signal_budget_contract WebSocketBot (mkBotSettings false true)
              (1 # 2) (signal_with_pct 50) true [])
    as (_ & H2 & _).
  destruct (H2 H) as [Hi HB].
  destruct (execute_signal WebSocketBot (mkBotSettings false true) (1 # 2)
              (signal_with_pct 50) true) as [B' issued].
  simpl in Hi, HB. subst. reflexivity.
Defined.

(** ** Scale-in schedule parsing *)

(** C8 (counterexample): "72,26,3" sums to 101 > 100; the scaled schedule
    sums to 100.00000000000001 in binary64, not to exactly 100. *)
Lemma parse_scale_in_pcts_sum_not_100 :
  PrimFloat.ltb 100%float (fsum [72%float; 26%float; 3%float]) = true /\
  parse_all decimal_float (map strip (split_on "," "72,26,3"%string))
    = Some [72%float; 26%float; 3%float] /\
  PrimFloat.eqb
    (fsum (parse_scale_in_pcts decimal_float (Some "72,26,3"%string)))
    100%float = false /\
  PrimFloat.ltb 100%float
    (fsum (parse_scale_in_pcts decimal_float (Some "72,26,3"%string))) = true.
Proof. vm_compute. repeat split. Qed.

(** C8 (amended): [None], the empty string or any token [float()] rejects
    gives the default [50, 30, 20]; a parsed schedule whose float sum is not
    above 100 is returned unchanged; one whose sum [total] is above 100 is
    returned with the same length and each [p] replaced by
    [p * 100 / total] in binary64 arithmetic (so the result sums to 100 only
    up to rounding). *)
Theorem parse_scale_in_pcts_spec (py_float : string -> option float)
    (v : string) :
  parse_scale_in_pcts py_float None = DEFAULT_SCALE_IN_FLOATS /\
  parse_scale_in_pcts py_float (Some EmptyString) = DEFAULT_SCALE_IN_FLOATS /\
  (parse_all py_float (map strip (split_on "," v)) = None ->
   parse_scale_in_pcts py_float (Some v) = DEFAULT_SCALE_IN_FLOATS) /\
  (forall pcts,
     v <> EmptyString ->
     parse_all py_float (map strip (split_on "," v)) = Some pcts ->
     (PrimFloat.ltb 100%float (fsum pcts) = false ->
      parse_scale_in_pcts py_float (Some v) = pcts) /\
     (PrimFloat.ltb 100%float (fsum pcts) = true ->
      length (parse_scale_in_pcts py_float (Some v)) = length pcts /\
      forall i p, nth_error pcts i = Some p ->
        nth_error (parse_scale_in_pcts py_float (Some v)) i
          = Some (p * 100 / fsum pcts)%float)).
Proof.
  split; [reflexivity|split; [reflexivity|split]].
  - intro H. simpl. destruct (String.eqb v EmptyString); [reflexivity|].
    rewrite H. reflexivity.
  - intros pcts Hne H. simpl.
    replace (String.eqb v EmptyString) with false
      by (symmetry; apply String.eqb_neq; exact Hne).
    rewrite H. split; intro Hs; rewrite Hs; [reflexivity|].
    split; [apply length_map|].
    intros i p Hp. rewrite nth_error_map, Hp. reflexivity.
Qed.

Lemma parse_scale_in_pcts_spec_witness :
  parse_scale_in_pcts decimal_float (Some "60,40"%string)
    = [60%float; 40%float] /\
  parse_scale_in_pcts decimal_float (Some "abc,def"%string)
    = DEFAULT_SCALE_IN_FLOATS.
Proof.
  destruct (parse_scale_in_pcts_spec decimal_float "60,40"%string)
    as (_ & _ & _ & H).
  destruct (parse_scale_in_pcts_spec decimal_float "abc,def"%string)
    as (_ & _ & H' & _).
  split.
  - apply (H [60%float; 40%float]); [discriminate|vm_compute; reflexivity|].
    vm_compute. reflexivity.
  - apply H'. vm_compute. reflexivity.
Defined.

(** ** Further properties of the detector *)

Lemma dict_set_keys_same (k : string) (v : OutcomeState) (m : outcome_map) :
  In k (map fst m) -> map fst (dict_set k v m) = map fst m.
Proof.
  induction m as [|[k0 v0] m IH]; simpl; [intros []|].
  intro H. destruct (String.eqb k k0) eqn:E; [reflexivity|].
  simpl. f_equal. apply IH. destruct H as [H|H]; [|exact H].
  subst. rewrite String.eqb_refl in E. discriminate.
Qed.

Lemma update_all_prices_keys (m : outcome_map) (mos : list MarketOutcome)
    (now : timestamp) :
  map fst (update_all_prices m mos now) = map fst m.
Proof.
  unfold update_all_prices. revert m.
  induction mos as [|mo mos IH]; intro m; simpl; [reflexivity|].
  destruct (dict_get (outcome mo) m) as [st|] eqn:Eg; [|apply IH].
  destruct (get_best_ask (order_book mo)) as [ask|]; [|apply IH].
  rewrite IH. apply dict_set_keys_same.
  apply dict_get_in in Eg. apply (in_map fst) in Eg. exact Eg.
Qed.

(** [update_prices] never adds or removes a tracked outcome: the keys of
    the [outcomes] dict, in order, are those before the call. *)
Theorem update_prices_keys (stdev : list Q -> Q) (d : MovementDetector)
    (mos : list MarketOutcome) (now : timestamp) :
  map fst (outcomes (snd (update_prices stdev d mos now))) = map fst (outcomes d).
Proof.
  unfold update_prices. destruct (baseline_set d); simpl; [|reflexivity].
  pose proof (find_best_spec stdev (update_all_prices (outcomes d) mos now))
    as Hspec.
  destruct (find_best stdev (update_all_prices (outcomes d) mos now))
    as [[[n st]|] bz]; simpl; [|apply update_all_prices_keys].
  destruct Hspec as (pre & post & Hm & _).
  destruct (check_trigger stdev _ st now) as [[osg d2] st'] eqn:Ec.
  apply check_trigger_spec in Ec as (Ho & _).
  assert (Hk : map fst (outcomes (with_outcomes d2 (dict_set n st' (outcomes d2))))
               = map fst (outcomes d)).
  { simpl. rewrite Ho. simpl. rewrite dict_set_keys_same.
    - apply update_all_prices_keys.
    - rewrite Hm, map_app. apply in_or_app. right. left. reflexivity. }
  destruct osg; exact Hk.
Qed.

(** Sum of a list of rationals. *)
Definition qsum (l : list Q) : Q := fold_right Qplus 0 l.

Lemma qsum_app (l1 l2 : list Q) : qsum (l1 ++ l2) == qsum l1 + qsum l2.
Proof.
  induction l1 as [|x l1 IH]; simpl.
  - rewrite Qplus_0_l. reflexivity.
  - rewrite IH. ring.
Qed.

Section Counters.

Variable stdev : list Q -> Q.

Lemma check_trigger_budget (d : MovementDetector) (s : OutcomeState)
    (now : timestamp) osg d2 s' :
  check_trigger stdev d s now = (osg, d2, s') ->
  total_signals d2 = total_signals d /\
  budget_spent_pct d2 == budget_spent_pct d + qsum (map budget_pct (opt_list osg)).
Proof.
  unfold check_trigger. intro H.
  split_matches_in H; inversion H; subst; clear H; simpl;
    (split; [reflexivity|ring]).
Qed.

Lemma update_prices_counts (d : MovementDetector) (mos : list MarketOutcome)
    (now : timestamp) :
  let '(sigs, d') := update_prices stdev d mos now in
  total_signals d' = (total_signals d + length sigs)%nat /\
  budget_spent_pct d' == budget_spent_pct d + qsum (map budget_pct sigs).
Proof.
  unfold update_prices. destruct (baseline_set d); simpl;
    [|split; [lia|simpl; ring]].
  destruct (find_best stdev (update_all_prices (outcomes d) mos now))
    as [[[n st]|] bz]; simpl; [|split; [lia|simpl; ring]].
  destruct (check_trigger stdev _ st now) as [[osg d2] st'] eqn:Ec.
  apply check_trigger_budget in Ec as [Ht Hb]. simpl in Ht, Hb.
  destruct osg as [sg|]; simpl in *; (split; [lia|]); rewrite Hb; ring.
Qed.

Lemma step_budget (d : MovementDetector) (op : detector_op) :
  is_trigger_attempt op = true ->
  let '(sigs, d1) := step stdev d op in
  budget_spent_pct d1 == budget_spent_pct d + qsum (map budget_pct sigs).
Proof.
  destruct op as [mos now|name now|mos now|]; simpl; intro Hop; try discriminate.
  - pose proof (update_prices_counts d mos now) as H.
    destruct (update_prices stdev d mos now) as [sigs d']. apply H.
  - destruct (dict_get name (outcomes d)) as [st|]; [|simpl; ring].
    destruct (check_trigger stdev d st now) as [[osg d2] st'] eqn:Ec.
    apply check_trigger_budget in Ec as [_ Hb]. simpl. rewrite Hb.
    destruct osg; reflexivity.
Qed.

Lemma run_budget (d : MovementDetector) (ops : list detector_op) :
  forallb is_trigger_attempt ops = true ->
  let '(sigs, d') := run stdev d ops in
  budget_spent_pct d' == budget_spent_pct d + qsum (map budget_pct sigs).
Proof.
  revert d. induction ops as [|op ops IH]; intros d Hops; simpl; [ring|].
  apply andb_true_iff in Hops as [Hop Hops].
  pose proof (step_budget d op Hop) as H1.
  destruct (step stdev d op) as [s1 d1].
  specialize (IH d1 Hops).
  destruct (run stdev d1 ops) as [s2 d2].
  rewrite IH, H1, map_app, qsum_app. ring.
Qed.

End Counters.

(** One [update_prices] call raises [total_signals] by the number of
    signals it returns and [budget_spent_pct] by the sum of their
    [budget_pct]. *)
Theorem update_prices_counters (stdev : list Q -> Q) (d : MovementDetector)
    (mos : list MarketOutcome) (now : timestamp) :
  let '(sigs, d') := update_prices stdev d mos now in
  total_signals d' = (total_signals d + length sigs)%nat /\
  budget_spent_pct d' == budget_spent_pct d + qsum (map budget_pct sigs).
Proof. apply update_prices_counts. Qed.

Lemma filter_all {A} (f : A -> bool) (l : list A) :
  (forall x, In x l -> f x = true) -> filter f l = l.
Proof.
  induction l as [|x l IH]; simpl; intro H; [reflexivity|].
  rewrite (H x (or_introl eq_refl)). f_equal. apply IH. auto.
Qed.

Lemma map_nth_firstn {A} (f : A -> Q) (l : list A) (p : list Q) :
  (forall i x, nth_error l i = Some x -> nth_error p i = Some (f x)) ->
  (length l <= length p)%nat /\ map f l = firstn (length l) p.
Proof.
  revert p. induction l as [|x l IH]; intros p H; simpl; [split; [lia|reflexivity]|].
  destruct p as [|y p].
  - specialize (H 0%nat x eq_refl). discriminate.
  - assert (Hy : y = f x) by (specialize (H 0%nat x eq_refl); simpl in H; congruence).
    destruct (IH p) as [Hl Hm].
    + intros i z Hi. apply (H (S i)). exact Hi.
    + simpl. split; [lia|]. rewrite Hm, Hy. reflexivity.
Qed.

(** In a session opened by [reset()] and [set_baseline], after any
    sequence of trigger attempts the detector's [budget_spent_pct] is the
    sum of the first [k] entries of [scale_in_pcts], where [k] (at most
    [len(scale_in_pcts)]) is the number of signals, and the signals carry
    exactly those entries in order. *)
Theorem session_budget_spent (stdev : list Q -> Q) (d0 : MovementDetector)
    (mos : list MarketOutcome) (now : timestamp) (ops : list detector_op) :
  forallb is_trigger_attempt ops = true ->
  let '(sigs, d') := run stdev (set_baseline (reset d0) mos now) ops in
  (length sigs <= length (scale_in_pcts d0))%nat /\
  map budget_pct sigs = firstn (length sigs) (scale_in_pcts d0) /\
  budget_spent_pct d' == qsum (firstn (length sigs) (scale_in_pcts d0)).
Proof.
  intro Hops.
  set (d1 := set_baseline (reset d0) mos now).
  assert (Hnr : forallb (fun op => negb (is_reset op)) ops = true).
  { apply forallb_forall. intros op Hin. rewrite forallb_forall in Hops.
    specialize (Hops op Hin). destruct op; simpl in *; congruence. }
  destruct (set_baseline_fresh d0 mos now) as [Hwf H0]. fold d1 in Hwf, H0.
  pose proof (run_lock stdev d1 ops Hnr) as Hl.
  pose proof (run_counts stdev d1 ops Hwf Hops) as Hc.
  pose proof (run_budget stdev d1 ops Hops) as Hb.
  destruct (run stdev d1 ops) as [sigs d'].
  destruct Hl as [_ Hl]. destruct Hc as (_ & _ & Hc).
  assert (Hnum : forall i sg, nth_error sigs i = Some sg ->
            nth_error (scale_in_pcts d0) i = Some (budget_pct sg)).
  { destruct (locked_outcome d') as [o|] eqn:Elo.
    - destruct (Hc o) as [Hn _]. rewrite H0 in Hn.
      unfold sigs_for in Hn. rewrite filter_all in Hn.
      + intros i sg Hi. apply Hn in Hi as [_ Hi]. exact Hi.
      + intros sg Hin. apply Hl in Hin. rewrite ?Elo in Hin.
        inversion Hin. apply String.eqb_refl.
    - intros i sg Hi. apply nth_error_In in Hi. apply Hl in Hi.
      rewrite ?Elo in Hi. discriminate. }
  destruct (map_nth_firstn budget_pct sigs (scale_in_pcts d0) Hnum) as [Hlen Hmap].
  split; [exact Hlen|split; [exact Hmap|]].
  rewrite Hb, <- Hmap. simpl. ring.
Qed.

Lemma session_budget_spent_witness :
  forallb is_trigger_attempt scenario_c_ops = true /\
  budget_spent_pct
    (snd (run stdev_q (set_baseline (reset scenario_c_config)
                         [quote "X" (10 # 100)] 0%Z) scenario_c_ops))
  == qsum (firstn (length (fst (run stdev_q (set_baseline (reset scenario_c_config)
                         [quote "X" (10 # 100)] 0%Z) scenario_c_ops)))
             (scale_in_pcts scenario_c_config)).
Proof.
  assert (H : forallb is_trigger_attempt scenario_c_ops = true)
    by reflexivity.
  split; [exact H|].
  pose proof (session_budget_spent stdev_q scenario_c_config
                [quote "X" (10 # 100)] 0%Z scenario_c_ops H) as Hs.
  destruct (run stdev_q (set_baseline (reset scenario_c_config)
              [quote "X" (10 # 100)] 0%Z) scenario_c_ops) as [sigs d'].
  destruct Hs as (_ & _ & Hs). exact Hs.
Defined.

Lemma Qdiv_sign (x sd : Q) :
  0 < sd -> (0 < x / sd -> 0 < x) /\ (x / sd < 0 -> x < 0).
Proof.
  intro Hs.
  assert (E : x / sd * sd == x)
    by (field; intro E; rewrite E in Hs; discriminate).
  split; intro H; apply (Qmult_lt_r _ _ sd) in H; try exact Hs;
    rewrite E in H; lra.
Qed.

Lemma zscore_sign (stdev : list Q -> Q) (s : OutcomeState) (z : Q) :
  get_zscore stdev s = Some z ->
  exists b c, baseline_price s = Some b /\ current_price s = Some c /\
    (0 < z -> b < c) /\ (z < 0 -> c < b).
Proof.
  unfold get_zscore. intro H.
  destruct (baseline_price s) as [b|]; [|discriminate].
  destruct (current_price s) as [c|]; [|discriminate].
  exists b, c. split; [reflexivity|split; [reflexivity|]].
  destruct (length (price_history s) <? 5)%nat; [discriminate|].
  destruct (Qltb (stdev (price_history s)) (1 # 1000)) eqn:Es.
  - destruct (Qltb (5 # 100) (Qabs (c - b))) eqn:Ea.
    + apply Qltb_iff in Ea.
      destruct (Qltb 0 (c - b)) eqn:Ep; inversion H; subst; clear H.
      * apply Qltb_iff in Ep. split; intro Hz; lra.
      * apply Qltb_false_iff in Ep. rewrite Qabs_neg in Ea by lra.
        split; intro Hz; lra.
    + inversion H; subst. split; intro Hz; lra.
  - inversion H; subst; clear H. apply Qltb_false_iff in Es.
    assert (Hsd : 0 < stdev (price_history s)) by lra.
    destruct (Qdiv_sign (c - b) _ Hsd) as [H1 H2].
    split; intro Hz; [apply H1 in Hz|apply H2 in Hz]; lra.
Qed.

(** The sign of a z-score is the sign of the move: a positive z-score
    means the current price is above the baseline, a negative one that it
    is below, whatever the standard deviation. *)
Theorem get_zscore_sign (stdev : list Q -> Q) (s : OutcomeState) (z : Q) :
  get_zscore stdev s = Some z ->
  exists b c, baseline_price s = Some b /\ current_price s = Some c /\
    (0 < z -> b < c) /\ (z < 0 -> c < b).
Proof. apply zscore_sign. Qed.

Lemma get_zscore_sign_witness :
  exists z b c, get_zscore stdev_q jump_state = Some z /\ 0 < z /\
    baseline_price jump_state = Some b /\ current_price jump_state = Some c /\
    b < c.
Proof.
  destruct (get_zscore stdev_q jump_state) as [z|] eqn:E;
    [|vm_compute in E; discriminate].
  assert (Hz : 0 < z).
  { vm_compute in E. inversion E. apply Qltb_iff. reflexivity. }
  destruct (get_zscore_sign stdev_q jump_state z E) as (b & c & Hb & Hc & Hp & _).
  exists z, b, c. repeat split; try assumption. apply Hp. exact Hz.
Defined.

(** Every signal of [_check_trigger] is for a price at most
    [max_buy_price], with a z-score at least [zscore_threshold], carries the
    state's current and baseline prices, uses a slot of the schedule, and,
    when the threshold is positive, is for a price above the baseline. *)
Theorem check_trigger_accept_bounds (stdev : list Q -> Q)
    (d : MovementDetector) (s : OutcomeState) (now : timestamp)
    (sg : MovementSignal) (d' : MovementDetector) (s' : OutcomeState) :
  check_trigger stdev d s now = (Some sg, d', s') ->
  sig_current_price sg <= max_buy_price d /\
  zscore_threshold d <= sig_zscore sg /\
  current_price s = Some (sig_current_price sg) /\
  baseline_price s = Some (sig_baseline_price sg) /\
  (trigger_count s < length (scale_in_pcts d))%nat /\
  (0 < zscore_threshold d -> sig_baseline_price sg < sig_current_price sg).
Proof.
  intro H.
  assert (Hz : get_zscore stdev s = Some (sig_zscore sg)).
  { revert H. unfold check_trigger. intro H.
    split_matches_in H; try discriminate; inversion H; subst; reflexivity. }
  assert (Hrest : sig_current_price sg <= max_buy_price d /\
    zscore_threshold d <= sig_zscore sg /\
    current_price s = Some (sig_current_price sg) /\
    baseline_price s = Some (sig_baseline_price sg) /\
    (trigger_count s < length (scale_in_pcts d))%nat).
  { revert H. unfold check_trigger. intro H.
    split_matches_in H; try discriminate; inversion H; subst; clear H; simpl;
    repeat match goal with
    | E : Qltb _ _ = false |- _ => apply Qltb_false_iff in E
    | E : (_ <? _)%nat = false |- _ => apply Nat.ltb_ge in E
    end;
    repeat split; try assumption; lia. }
  destruct Hrest as (H1 & H2 & H3 & H4 & H5).
  repeat (split; [assumption|]).
  intro Ht. destruct (zscore_sign stdev s _ Hz) as (b & c & Hb & Hc & Hp & _).
  rewrite H4 in Hb. rewrite H3 in Hc. inversion Hb. inversion Hc. subst.
  apply Hp. lra.
Qed.

Lemma check_trigger_accept_bounds_witness :
  exists sg d' s',
    check_trigger stdev_q default_MovementDetector jump_state 2%Z
      = (Some sg, d', s') /\
    sig_current_price sg <= max_buy_price default_MovementDetector.
Proof.
  destruct (check_trigger stdev_q default_MovementDetector jump_state 2%Z)
    as [[[sg|] d'] s'] eqn:E.
  - exists sg, d', s'. split; [reflexivity|].
    destruct (check_trigger_accept_bounds _ _ _ _ _ _ _ E) as (H & _).
    exact H.
  - vm_compute in E. discriminate.
Defined.

Lemma dict_set_get_same (k : string) (v : OutcomeState) (m : outcome_map) :
  dict_get k m = Some v -> dict_set k v m = m.
Proof.
  induction m as [|[k0 v0] m IH]; simpl; [discriminate|].
  destruct (String.eqb k k0) eqn:E.
  - intro H. inversion H. apply String.eqb_eq in E. subst. reflexivity.
  - intro H. rewrite IH; [reflexivity|exact H].
Qed.

(** An [update_prices] call that emits no signal changes nothing but the
    recorded prices: no trigger count, budget, lock or counter moves (for
    a dict without repeated keys, as [set_baseline] builds it). *)
Theorem update_prices_no_signal_frame (stdev : list Q -> Q)
    (d : MovementDetector) (mos : list MarketOutcome) (now : timestamp)
    (d' : MovementDetector) :
  NoDup (map fst (outcomes d)) ->
  update_prices stdev d mos now = ([], d') ->
  d' = if baseline_set d
       then with_outcomes d (update_all_prices (outcomes d) mos now)
       else d.
Proof.
  intros Hnd H. unfold update_prices in H.
  destruct (baseline_set d); simpl in H; [|inversion H; reflexivity].
  set (m := update_all_prices (outcomes d) mos now) in *.
  pose proof (find_best_spec stdev m) as Hspec.
  destruct (find_best stdev m) as [[[n st]|] bz]; simpl in H;
    [|inversion H; reflexivity].
  destruct Hspec as (pre & post & Hm & _).
  destruct (check_trigger stdev (with_outcomes d m) st now)
    as [[osg d2] st'] eqn:Ec.
  apply check_trigger_spec in Ec as (_ & _ & _ & _ & _ & Hsg).
  destruct osg as [sg|]; [discriminate|].
  destruct Hsg as [-> ->]. inversion H; subst; clear H.
  simpl. rewrite dict_set_get_same; [reflexivity|].
  apply in_dict_get.
  - unfold m. rewrite update_all_prices_keys. exact Hnd.
  - rewrite Hm. apply in_or_app. right. left. reflexivity.
Qed.

Definition quiet_detector : MovementDetector :=
  set_baseline default_MovementDetector [quote "X" (10 # 100)] 0%Z.

Lemma update_prices_no_signal_frame_witness :
  NoDup (map fst (outcomes quiet_detector)) /\
  snd (update_prices stdev_q quiet_detector [quote "X" (11 # 100)] 1%Z)
  = with_outcomes quiet_detector
      (update_all_prices (outcomes quiet_detector) [quote "X" (11 # 100)] 1%Z).
Proof.
  assert (Hnd : NoDup (map fst (outcomes quiet_detector))).
  { vm_compute. constructor; [intros []|constructor]. }
  assert (E : update_prices stdev_q quiet_detector [quote "X" (11 # 100)] 1%Z
              = ([], snd (update_prices stdev_q quiet_detector
                              [quote "X" (11 # 100)] 1%Z)))
    by (vm_compute; reflexivity).
  split; [exact Hnd|].
  exact (update_prices_no_signal_frame stdev_q quiet_detector _ _ _ Hnd E).
Defined.

Lemma skipn_deque_append (l : list Q) (x : Q) :
  deque_append HISTORY_MAXLEN (skipn (length l - HISTORY_MAXLEN) l) x
  = skipn (length (l ++ [x]) - HISTORY_MAXLEN) (l ++ [x]).
Proof.
  unfold deque_append.
  assert (E : skipn (length l - HISTORY_MAXLEN) l ++ [x]
              = skipn (length l - HISTORY_MAXLEN) (l ++ [x])).
  { rewrite skipn_app.
    replace (length l - HISTORY_MAXLEN - length l)%nat with 0%nat by lia.
    reflexivity. }
  rewrite E, skipn_skipn, length_skipn, length_app. simpl.
  f_equal. unfold HISTORY_MAXLEN. lia.
Qed.

(** After [set_baseline(p0)] and any [update_price] calls, the history is
    the last 60 of the baseline and the prices, in order: the baseline
    price stays in the window until the 60th update. *)
Theorem after_updates_history (s0 : OutcomeState) (p0 : Q)
    (ps : list (Q * option timestamp * timestamp)) :
  let prices := p0 :: map (fun '(p, _, _) => p) ps in
  price_history (after_updates s0 p0 ps)
  = skipn (length prices - HISTORY_MAXLEN) prices.
Proof.
  intro prices. subst prices. unfold after_updates.
  assert (Hgen : forall s (l : list Q),
    price_history s = skipn (length l - HISTORY_MAXLEN) l ->
    price_history (fold_left (fun s '(p, ts, now) => update_price s p ts now) ps s)
    = skipn (length (l ++ map (fun '(p, _, _) => p) ps) - HISTORY_MAXLEN)
        (l ++ map (fun '(p, _, _) => p) ps)).
  { induction ps as [|[[p ts] now] ps IH]; intros s l Hs; simpl.
    - rewrite app_nil_r. exact Hs.
    - replace (l ++ p :: map (fun '(p, _, _) => p) ps)
        with ((l ++ [p]) ++ map (fun '(p, _, _) => p) ps)
        by (rewrite <- app_assoc; reflexivity).
      apply IH. simpl. rewrite Hs. apply skipn_deque_append. }
  apply (Hgen _ [p0]). reflexivity.
Qed.

(** The last quote with a best ask for outcome [o] in a list of market
    outcomes. *)
Fixpoint last_quote (o : string) (mos : list MarketOutcome)
  : option (MarketOutcome * Q) :=
  match mos with
  | [] => None
  | mo :: rest =>
      match last_quote o rest with
      | Some r => Some r
      | None =>
          if String.eqb (outcome mo) o then
            match get_best_ask (order_book mo) with
            | Some p => Some (mo, p)
            | None => None
            end
          else None
      end
  end.

(** [set_baseline] tracks an outcome from the last market outcome of that
    name with a best ask, re-seeded at that ask with a zero trigger count;
    an outcome with no such quote keeps whatever state it had (the dict is
    not cleared); the lock and the counters are left as they were. *)
Theorem set_baseline_outcomes (d : MovementDetector)
    (mos : list MarketOutcome) (now : timestamp) (o : string) :
  dict_get o (outcomes (set_baseline d mos now)) =
    match last_quote o mos with
    | Some (mo, p) =>
        Some (OutcomeState_set_baseline
                (new_OutcomeState o (mo_token_id mo) (mo_no_token_id mo)) p)
    | None => dict_get o (outcomes d)
    end /\
  locked_outcome (set_baseline d mos now) = locked_outcome d /\
  total_signals (set_baseline d mos now) = total_signals d /\
  budget_spent_pct (set_baseline d mos now) = budget_spent_pct d.
Proof.
  split; [|repeat split].
  unfold set_baseline. simpl. generalize (outcomes d) as m.
  induction mos as [|mo mos IH]; intro m; simpl; [reflexivity|].
  rewrite IH. destruct (last_quote o mos) as [[mo' p']|]; [reflexivity|].
  destruct (get_best_ask (order_book mo)) as [ask|] eqn:Ea.
  - rewrite dict_get_set.
    destruct (String.eqb o (outcome mo)) eqn:E1;
      destruct (String.eqb (outcome mo) o) eqn:E2; try reflexivity.
    + apply String.eqb_eq in E1. subst. reflexivity.
    + apply String.eqb_eq in E1. subst. rewrite String.eqb_refl in E2. discriminate.
    + apply String.eqb_eq in E2. subst. rewrite String.eqb_refl in E1. discriminate.
  - destruct (String.eqb (outcome mo) o); reflexivity.
Qed.

(** ** Further properties of the WebSocket bot *)

Lemma assoc_get_set {A} (k k' : string) (v : A) (m : list (string * A)) :
  assoc_get k' (assoc_set k v m) =
  if String.eqb k' k then Some v else assoc_get k' m.
Proof.
  induction m as [|[k0 v0] m IH]; simpl.
  - reflexivity.
  - destruct (String.eqb k k0) eqn:E1.
    + apply String.eqb_eq in E1. subst k0. simpl.
      destruct (String.eqb k' k); reflexivity.
    + simpl. rewrite IH.
      destruct (String.eqb k' k0) eqn:E2; [|reflexivity].
      apply String.eqb_eq in E2. subst k0.
      destruct (String.eqb k' k) eqn:E3; [|reflexivity].
      apply String.eqb_eq in E3. subst. rewrite String.eqb_refl in E1.
      discriminate.
Qed.

Section WsProofs.

Variable stdev : list Q -> Q.
Variable cfg : BotSettings.
Variable py_float_str : string -> option Q.
Variable order_ok : MovementSignal -> bool.

Lemma ws_execute_signal_frame (b : WsBot) (sg : MovementSignal)
    (now : timestamp) :
  let b' := ws_execute_signal cfg order_ok b sg now in
  market_detectors b' = market_detectors b /\
  token_id_to_outcome b' = token_id_to_outcome b /\
  token_id_to_slug b' = token_id_to_slug b /\
  update_count b' = update_count b /\ dropped_count b' = dropped_count b /\
  budget_remaining b' <= budget_remaining b /\
  (0 <= budget_remaining b -> 0 <= budget_remaining b').
Proof.
  unfold ws_execute_signal, execute_signal.
  destruct (skips_execution WebSocketBot cfg); simpl;
    [repeat split; intros; lra|].
  destruct (Qltb (trade_amount (budget_remaining b) (budget_pct sg)) 1) eqn:E;
    simpl; [repeat split; intros; lra|].
  apply Qltb_false_iff in E.
  pose proof (trade_amount_le (budget_remaining b) (budget_pct sg)).
  destruct (order_ok sg); simpl; repeat split; intros; lra.
Qed.

Lemma feed_frame (b : WsBot) (o slug : string) (p : Q) (now : timestamp) :
  let b' := feed_price_to_detector stdev cfg order_ok b o slug p now in
  token_id_to_outcome b' = token_id_to_outcome b /\
  token_id_to_slug b' = token_id_to_slug b /\
  update_count b' = update_count b /\ dropped_count b' = dropped_count b /\
  budget_remaining b' <= budget_remaining b /\
  (0 <= budget_remaining b -> 0 <= budget_remaining b') /\
  (assoc_get slug (market_detectors b) = None -> b' = b) /\
  (forall slug', slug' <> slug ->
     assoc_get slug' (market_detectors b') = assoc_get slug' (market_detectors b)) /\
  (forall det, assoc_get slug (market_detectors b) = Some det ->
     exists det', assoc_get slug (market_detectors b') = Some det' /\
       (forall o', o' <> o -> dict_get o' (outcomes det') = dict_get o' (outcomes det)) /\
       (forall lo, locked_outcome det = Some lo -> locked_outcome det' = Some lo)).
Proof.
  unfold feed_price_to_detector.
  destruct (assoc_get slug (market_detectors b)) as [det|] eqn:Ed.
  2:{ repeat split; intros; try reflexivity; try lra; discriminate. }
  destruct (dict_get o (outcomes det)) as [st|] eqn:Eo.
  2:{ repeat split; intros; try reflexivity; try lra; try discriminate.
      match goal with H : Some _ = Some _ |- _ => inversion H; subst end.
      eexists. split; [eassumption|split; auto]. }
  set (st1 := update_price st p (Some now) now).
  set (det1 := with_outcomes det (dict_set o st1 (outcomes det))).
  destruct (check_trigger stdev det1 st1 now) as [[osg det2] st2] eqn:Ec.
  apply check_trigger_spec in Ec as (Ho2 & _ & _ & _ & Hmono & _).
  set (det3 := with_outcomes det2 (dict_set o st2 (outcomes det2))).
  assert (Hout : forall o', o' <> o ->
            dict_get o' (outcomes det3) = dict_get o' (outcomes det)).
  { intros o' Hne. unfold det3. simpl. rewrite Ho2. unfold det1. simpl.
    rewrite !dict_get_set. apply String.eqb_neq in Hne. rewrite Hne.
    reflexivity. }
  assert (Hlk : forall lo, locked_outcome det = Some lo ->
            locked_outcome det3 = Some lo).
  { intros lo H. unfold det3. simpl. apply Hmono. exact H. }
  destruct osg as [sg|].
  - destruct (ws_execute_signal_frame
                (with_detectors b (assoc_set slug (count_signal det3)
                                     (market_detectors b))) sg now)
      as (Hd & Hto & Hts & Hu & Hdr & Hb1 & Hb2).
    rewrite Hd, Hto, Hts, Hu, Hdr. simpl in *.
    split; [reflexivity|split; [reflexivity|split; [reflexivity|split; [reflexivity|]]]].
    split; [exact Hb1|split; [exact Hb2|split; [discriminate|split]]].
    + intros slug' Hne. rewrite assoc_get_set.
      apply String.eqb_neq in Hne. rewrite Hne. reflexivity.
    + intros det0 H. inversion H; subst det0.
      exists (count_signal det3). rewrite assoc_get_set, String.eqb_refl.
      split; [reflexivity|split; [exact Hout|exact Hlk]].
  - simpl.
    split; [reflexivity|split; [reflexivity|split; [reflexivity|split; [reflexivity|]]]].
    split; [apply Qle_refl|split; [auto|split; [discriminate|split]]].
    + intros slug' Hne. rewrite assoc_get_set.
      apply String.eqb_neq in Hne. rewrite Hne. reflexivity.
    + intros det0 H. inversion H; subst det0.
      exists det3. rewrite assoc_get_set, String.eqb_refl.
      split; [reflexivity|split; [exact Hout|exact Hlk]].
Qed.

(** What a sequence of message handlers may change: the token maps stay,
    the budget only shrinks and stays non-negative, a detector whose slug
    no subscribed token maps to is untouched, and locks are kept. *)
Definition ws_frame (b b' : WsBot) : Prop :=
  token_id_to_outcome b' = token_id_to_outcome b /\
  token_id_to_slug b' = token_id_to_slug b /\
  budget_remaining b' <= budget_remaining b /\
  (0 <= budget_remaining b -> 0 <= budget_remaining b') /\
  (forall slug, (forall tok, assoc_get tok (token_id_to_slug b) <> Some slug) ->
     assoc_get slug (market_detectors b') = assoc_get slug (market_detectors b)) /\
  (forall slug det lo, assoc_get slug (market_detectors b) = Some det ->
     locked_outcome det = Some lo ->
     exists det', assoc_get slug (market_detectors b') = Some det' /\
       locked_outcome det' = Some lo).

Lemma ws_frame_refl (b : WsBot) : ws_frame b b.
Proof.
  repeat split; intros; try reflexivity; try lra. eexists; split; eauto.
Qed.

Lemma ws_frame_trans (b1 b2 b3 : WsBot) :
  ws_frame b1 b2 -> ws_frame b2 b3 -> ws_frame b1 b3.
Proof.
  intros (Ho1 & Hs1 & Hb1 & Hn1 & Hu1 & Hl1) (Ho2 & Hs2 & Hb2 & Hn2 & Hu2 & Hl2).
  split; [congruence|split; [congruence|split; [lra|split; [auto|split]]]].
  - intros slug H. rewrite Hu2, Hu1; [reflexivity|exact H|]. rewrite Hs1. exact H.
  - intros slug det lo Hd Hlo. destruct (Hl1 _ _ _ Hd Hlo) as (det' & Hd' & Hlo').
    exact (Hl2 _ _ _ Hd' Hlo').
Qed.

Lemma ws_frame_dropped (b : WsBot) : ws_frame b (count_dropped b).
Proof. exact (ws_frame_refl b). Qed.

Lemma ws_frame_feed (b : WsBot) (tok o slug : string) (p : Q) (now : timestamp) :
  assoc_get tok (token_id_to_slug b) = Some slug ->
  ws_frame b (feed_price_to_detector stdev cfg order_ok (count_update b) o slug p now).
Proof.
  intro Ht.
  destruct (feed_frame (count_update b) o slug p now)
    as (Ho & Hs & _ & _ & Hb & Hn & _ & Hu & Hl).
  simpl in *. split; [exact Ho|split; [exact Hs|split; [exact Hb|split; [exact Hn|split]]]].
  - intros slug' H. apply Hu. intro E. subst. apply (H tok). exact Ht.
  - intros slug' det lo Hd Hlo.
    destruct (String.eqb slug' slug) eqn:E.
    + apply String.eqb_eq in E. subst slug'.
      destruct (Hl det Hd) as (det' & Hd' & _ & Hl').
      exists det'. split; [exact Hd'|apply Hl'; exact Hlo].
    + apply String.eqb_neq in E. exists det. rewrite Hu by exact E.
      split; [exact Hd|exact Hlo].
Qed.

(** The changes a message can make: zero or more prices, each strictly
    positive and for a token of the subscription maps with a non-empty
    outcome and slug, counted in [update_count] and fed to the detector. *)
Inductive fed : WsBot -> WsBot -> Prop :=
  | fed_refl (b : WsBot) : fed b b
  | fed_step (b b' : WsBot) (tok o slug : string) (p : Q) (now : timestamp) :
      assoc_get tok (token_id_to_outcome b) = Some o ->
      assoc_get tok (token_id_to_slug b) = Some slug ->
      o <> EmptyString -> slug <> EmptyString -> 0 < p ->
      fed (feed_price_to_detector stdev cfg order_ok (count_update b) o slug p now) b' ->
      fed b b'.

Lemma fed_trans (b1 b2 b3 : WsBot) : fed b1 b2 -> fed b2 b3 -> fed b1 b3.
Proof.
  intros H12 H23. induction H12 as [b|b b' tok o slug p now H1 H2 H3 H4 H5 H6 IH].
  - exact H23.
  - eapply fed_step; eauto.
Qed.

Lemma fed_ws_frame (b b' : WsBot) : fed b b' -> ws_frame b b'.
Proof.
  intro H. induction H as [b|b b' tok o slug p now H1 H2 H3 H4 H5 H6 IH].
  - apply ws_frame_refl.
  - eapply ws_frame_trans; [|exact IH]. eapply ws_frame_feed. exact H2.
Qed.

Lemma nonempty_some (on : option string) (o : string) :
  nonempty on = Some o -> on = Some o /\ o <> EmptyString.
Proof.
  destruct on as [s|]; simpl; [|discriminate].
  destruct (String.eqb s EmptyString) eqn:E; [discriminate|].
  intro H. inversion H; subst. split; [reflexivity|].
  apply String.eqb_neq. exact E.
Qed.

Lemma fed_feed (b : WsBot) (key : pyval) (on sl : option string)
    (o slug : string) (p : Q) (now : timestamp) :
  key_get key (token_id_to_outcome b) = Some on ->
  key_get key (token_id_to_slug b) = Some sl ->
  nonempty on = Some o -> nonempty sl = Some slug -> 0 < p ->
  fed b (feed_price_to_detector stdev cfg order_ok (count_update b) o slug p now).
Proof.
  intros H1 H2 H3 H4 Hp.
  apply nonempty_some in H3 as [-> Ho]. apply nonempty_some in H4 as [-> Hs].
  destruct key as [| | |tok| |]; simpl in H1, H2; try discriminate.
  inversion H1. inversion H2.
  eapply fed_step; [eassumption..|apply fed_refl].
Qed.

Lemma Qle_bool_false_lt (p : Q) : Qle_bool p 0 = false -> 0 < p.
Proof.
  intro H. apply Qnot_le_lt. intro Hle. apply Qle_bool_iff in Hle. congruence.
Qed.

Ltac fed_close :=
  first
  [ apply fed_refl
  | eapply fed_feed; [eassumption..|];
    first [apply Qle_bool_false_lt; assumption | apply Qltb_iff; assumption] ].

Lemma book_fed (b : WsBot) (data : list (string * pyval)) (now : timestamp) :
  fed b (fst (process_book_event stdev cfg py_float_str order_ok b data now)).
Proof. unfold process_book_event. split_matches; simpl; fed_close. Qed.

Lemma change_fed (b : WsBot) (c : pyval) (now : timestamp) :
  fed b (fst (process_change stdev cfg py_float_str order_ok b c now)).
Proof. unfold process_change. split_matches; simpl; fed_close. Qed.

Lemma changes_fed (b : WsBot) (l : list pyval) (now : timestamp) :
  fed b (fst (process_changes stdev cfg py_float_str order_ok b l now)).
Proof.
  revert b. induction l as [|c l IH]; intro b; simpl; [apply fed_refl|].
  pose proof (change_fed b c now) as H.
  destruct (process_change stdev cfg py_float_str order_ok b c now) as [b1 r].
  destruct r; simpl in *; [exact H|]. eapply fed_trans; [exact H|apply IH].
Qed.

Lemma nested_fed (b : WsBot) (data : list (string * pyval)) (now : timestamp) :
  fed b (fst (process_nested stdev cfg py_float_str order_ok b data now)).
Proof.
  unfold process_nested.
  destruct (py_get data "price_changes" (PList [])); simpl;
    try apply fed_refl. apply changes_fed.
Qed.

Lemma price_change_fed (b : WsBot) (data : list (string * pyval))
    (now : timestamp) :
  fed b (fst (process_price_change stdev cfg py_float_str order_ok b data now)).
Proof.
  unfold process_price_change. split_matches; simpl;
    first [apply nested_fed | fed_close].
Qed.

Lemma message_fed (b : WsBot) (data : list (string * pyval)) (now : timestamp) :
  let b' := fst (process_message stdev cfg py_float_str order_ok b data now) in
  b' = count_dropped b \/ fed b b'.
Proof.
  unfold process_message.
  destruct (py_get data "event_type" (PStr EmptyString)) as [| | |et| |];
    simpl; try (left; reflexivity).
  destruct (String.eqb et "book"); [right; apply book_fed|].
  destruct (String.eqb et "price_change"); [right; apply price_change_fed|].
  destruct (String.eqb et "last_trade_price"); simpl;
    [right; apply fed_refl|left; reflexivity].
Qed.

Lemma message_ws_frame (b : WsBot) (data : list (string * pyval))
    (now : timestamp) :
  ws_frame b (fst (process_message stdev cfg py_float_str order_ok b data now)).
Proof.
  destruct (message_fed b data now) as [H|H]; rewrite ?H;
    [apply ws_frame_dropped|apply fed_ws_frame; exact H].
Qed.

Lemma items_ws_frame (b : WsBot) (items : list pyval) (now : timestamp) :
  ws_frame b (fst (process_items stdev cfg py_float_str order_ok b items now)).
Proof.
  revert b. induction items as [|it items IH]; intro b; simpl;
    [apply ws_frame_refl|].
  destruct it as [| | | | |kvs]; try apply IH.
  pose proof (message_ws_frame b kvs now) as H.
  destruct (process_message stdev cfg py_float_str order_ok b kvs now) as [b1 r].
  destruct r; simpl in *; [exact H|]. eapply ws_frame_trans; [exact H|apply IH].
Qed.

Lemma session_ws_frame (b : WsBot) (frames : list (pyval * timestamp)) :
  ws_frame b (ws_session stdev cfg py_float_str order_ok b frames).
Proof.
  revert b. induction frames as [|[msg now] frames IH]; intro b; simpl;
    [apply ws_frame_refl|].
  eapply ws_frame_trans; [|apply IH].
  unfold process_frame. destruct msg; simpl; try apply ws_frame_refl.
  - apply items_ws_frame.
  - apply message_ws_frame.
Qed.

End WsProofs.

(** A concrete WebSocket session: one market "tsa-1" whose outcome "X" is
    baselined at 0.10, then eight book snapshots, seven at 0.10 and one at
    0.40 (a z-score of exactly 3). *)
Definition ws_cfg : BotSettings := mkBotSettings false true.

Definition no_float_str (s : string) : option Q := None.

Definition always_ok (sg : MovementSignal) : bool := true.

Definition tsa_detector : MovementDetector :=
  set_baseline default_MovementDetector [quote "X" (10 # 100)] 0%Z.

Definition ws_bot0 : WsBot :=
  mkWsBot [("tsa-1"%string, tsa_detector)] [("tokX"%string, "X"%string)]
    [("tokX"%string, "tsa-1"%string)] 100 0 0 None.

Definition book_msg (p : Q) : list (string * pyval) :=
  [("event_type"%string, PStr "book"); ("asset_id"%string, PStr "tokX");
   ("asks"%string, PList [PDict [("price"%string, PNum p)]])].

Definition ws_frames : list (pyval * timestamp) :=
  map (fun p => (PDict (book_msg p), 1%Z)) (repeat (10 # 100) 7 ++ [40 # 100]).

(** [_feed_price_to_detector] touches only the detector of its slug, and in
    it only the state of its outcome; it keeps that detector's lock, never
    changes the token maps or the message counters, and only lowers the
    budget, never below zero; with no detector for the slug it does
    nothing. *)
Theorem feed_price_isolation (stdev : list Q -> Q) (cfg : BotSettings)
    (order_ok : MovementSignal -> bool) (b : WsBot) (o slug : string) (p : Q)
    (now : timestamp) :
  let b' := feed_price_to_detector stdev cfg order_ok b o slug p now in
  token_id_to_outcome b' = token_id_to_outcome b /\
  token_id_to_slug b' = token_id_to_slug b /\
  update_count b' = update_count b /\ dropped_count b' = dropped_count b /\
  budget_remaining b' <= budget_remaining b /\
  (0 <= budget_remaining b -> 0 <= budget_remaining b') /\
  (assoc_get slug (market_detectors b) = None -> b' = b) /\
  (forall slug', slug' <> slug ->
     assoc_get slug' (market_detectors b') = assoc_get slug' (market_detectors b)) /\
  (forall det, assoc_get slug (market_detectors b) = Some det ->
     exists det', assoc_get slug (market_detectors b') = Some det' /\
       (forall o', o' <> o -> dict_get o' (outcomes det') = dict_get o' (outcomes det)) /\
       (forall lo, locked_outcome det = Some lo -> locked_outcome det' = Some lo)).
Proof. apply feed_frame. Qed.

Lemma feed_price_isolation_witness :
  assoc_get "other"%string
    (market_detectors (feed_price_to_detector stdev_q ws_cfg always_ok ws_bot0
                         "X" "tsa-1" (40 # 100) 1%Z))
  = assoc_get "other"%string (market_detectors ws_bot0).
Proof.
  destruct (feed_price_isolation stdev_q ws_cfg always_ok ws_bot0 "X" "tsa-1"
              (40 # 100) 1%Z) as (_ & _ & _ & _ & _ & _ & _ & H & _).
  apply H. discriminate.
Defined.

(** Over any sequence of received frames, the shared budget never rises
    and, from a non-negative start, never becomes negative. *)
Theorem ws_session_budget (stdev : list Q -> Q) (cfg : BotSettings)
    (py_float_str : string -> option Q) (order_ok : MovementSignal -> bool)
    (b : WsBot) (frames : list (pyval * timestamp)) :
  0 <= budget_remaining b ->
  let b' := ws_session stdev cfg py_float_str order_ok b frames in
  0 <= budget_remaining b' /\ budget_remaining b' <= budget_remaining b.
Proof.
  intros H0 b'.
  destruct (session_ws_frame stdev cfg py_float_str order_ok b frames)
    as (_ & _ & Hb & Hn & _).
  split; [apply Hn; exact H0|exact Hb].
Qed.

Lemma ws_session_budget_witness :
  0 <= budget_remaining ws_bot0 /\
  budget_remaining (ws_session stdev_q ws_cfg no_float_str always_ok ws_bot0 ws_frames)
    <= budget_remaining ws_bot0 /\
  budget_remaining (ws_session stdev_q ws_cfg no_float_str always_ok ws_bot0 ws_frames)
    == 50.
Proof.
  assert (H0 : 0 <= budget_remaining ws_bot0) by (apply Qle_bool_iff; reflexivity).
  split; [exact H0|split].
  - destruct (ws_session_budget stdev_q ws_cfg no_float_str always_ok ws_bot0
                ws_frames H0) as [_ H]. exact H.
  - apply Qeq_bool_iff. vm_compute. reflexivity.
Defined.

(** Over any sequence of received frames, the token maps are unchanged and
    the detector of a slug that no subscribed token maps to is never
    touched. *)
Theorem ws_session_isolation (stdev : list Q -> Q) (cfg : BotSettings)
    (py_float_str : string -> option Q) (order_ok : MovementSignal -> bool)
    (b : WsBot) (frames : list (pyval * timestamp)) (slug : string) :
  (forall tok, assoc_get tok (token_id_to_slug b) <> Some slug) ->
  let b' := ws_session stdev cfg py_float_str order_ok b frames in
  token_id_to_outcome b' = token_id_to_outcome b /\
  token_id_to_slug b' = token_id_to_slug b /\
  assoc_get slug (market_detectors b') = assoc_get slug (market_detectors b).
Proof.
  intros Hs b'.
  destruct (session_ws_frame stdev cfg py_float_str order_ok b frames)
    as (Ho & Ht & _ & _ & Hu & _).
  split; [exact Ho|split; [exact Ht|apply Hu; exact Hs]].
Qed.

Lemma ws_session_isolation_witness :
  let b0 := with_detectors ws_bot0
              (market_detectors ws_bot0 ++ [("tsa-2"%string, tsa_detector)]) in
  assoc_get "tsa-2"%string
    (market_detectors (ws_session stdev_q ws_cfg no_float_str always_ok b0 ws_frames))
  = Some tsa_detector.
Proof.
  intro b0.
  assert (Hs : forall tok, assoc_get tok (token_id_to_slug b0) <> Some "tsa-2"%string).
  { intro tok. simpl. destruct (String.eqb tok "tokX"); discriminate. }
  destruct (ws_session_isolation stdev_q ws_cfg no_float_str always_ok b0
              ws_frames "tsa-2" Hs) as (_ & _ & H).
  rewrite H. reflexivity.
Defined.

(** Over any sequence of received frames, a detector locked to an outcome
    stays and stays locked to it: on the WebSocket path too, each market
    trades at most one outcome per session. *)
Theorem ws_session_lock (stdev : list Q -> Q) (cfg : BotSettings)
    (py_float_str : string -> option Q) (order_ok : MovementSignal -> bool)
    (b : WsBot) (frames : list (pyval * timestamp)) (slug : string)
    (det : MovementDetector) (lo : string) :
  assoc_get slug (market_detectors b) = Some det ->
  locked_outcome det = Some lo ->
  exists det',
    assoc_get slug (market_detectors (ws_session stdev cfg py_float_str order_ok b frames))
      = Some det' /\ locked_outcome det' = Some lo.
Proof.
  intros Hd Hl.
  destruct (session_ws_frame stdev cfg py_float_str order_ok b frames)
    as (_ & _ & _ & _ & _ & H).
  exact (H _ _ _ Hd Hl).
Qed.

Lemma ws_session_lock_witness :
  let b1 := ws_session stdev_q ws_cfg no_float_str always_ok ws_bot0 ws_frames in
  exists det det',
    assoc_get "tsa-1"%string (market_detectors b1) = Some det /\
    locked_outcome det = Some "X"%string /\
    assoc_get "tsa-1"%string
      (market_detectors (ws_session stdev_q ws_cfg no_float_str always_ok b1
                           [(PDict (book_msg (10 # 100)), 2%Z)])) = Some det' /\
    locked_outcome det' = Some "X"%string.
Proof.
  intro b1.
  destruct (assoc_get "tsa-1"%string (market_detectors b1)) as [det|] eqn:Ed;
    [|vm_compute in Ed; discriminate].
  assert (Hl : locked_outcome det = Some "X"%string).
  { vm_compute in Ed. inversion Ed. reflexivity. }
  destruct (ws_session_lock stdev_q ws_cfg no_float_str always_ok b1
              [(PDict (book_msg (10 # 100)), 2%Z)] "tsa-1" det "X" Ed Hl)
    as (det' & Hd' & Hl').
  exists det, det'. split; [reflexivity|split; [exact Hl|split; assumption]].
Defined.

(** The (slug, outcome) pairs [_subscribe_to_markets] walks through. *)
Definition sub_entries (markets : list Market) : list (string * MarketOutcome) :=
  flat_map (fun m => map (fun mo => (market_slug m, mo)) (m_outcomes m)) markets.

(** The last entry with a non-empty token id equal to [t]. *)
Fixpoint last_entry (t : string) (es : list (string * MarketOutcome))
  : option (string * MarketOutcome) :=
  match es with
  | [] => None
  | (s, mo) :: rest =>
      match last_entry t rest with
      | Some e => Some e
      | None =>
          if negb (String.eqb (mo_token_id mo) EmptyString)
             && String.eqb (mo_token_id mo) t
          then Some (s, mo) else None
      end
  end.

Definition sub_step (acc : list (string * string) * list (string * string) * list string)
    (e : string * MarketOutcome)
  : list (string * string) * list (string * string) * list string :=
  let '(to_o, to_s, ids) := acc in
  let '(slug, mo) := e in
  if String.eqb (mo_token_id mo) EmptyString then (to_o, to_s, ids)
  else (assoc_set (mo_token_id mo) (outcome mo) to_o,
        assoc_set (mo_token_id mo) slug to_s,
        ids ++ [mo_token_id mo]).

Lemma fold_left_map_pair {A B C : Type} (f : A -> C -> A) (g : B -> C)
    (l : list B) (a : A) :
  fold_left f (map g l) a = fold_left (fun acc x => f acc (g x)) l a.
Proof. revert a. induction l as [|x l IH]; intro a; simpl; [reflexivity|apply IH]. Qed.

Lemma fold_left_ext_pt {A B : Type} (f g : A -> B -> A) (l : list B) (a : A) :
  (forall acc x, f acc x = g acc x) -> fold_left f l a = fold_left g l a.
Proof. intro H. revert a. induction l as [|x l IH]; intro a; simpl; [reflexivity|rewrite H; apply IH]. Qed.

Lemma token_maps_flat (markets : list Market) :
  token_maps markets = fold_left sub_step (sub_entries markets) ([], [], []).
Proof.
  unfold token_maps, sub_entries. generalize (@nil (string * string) , @nil (string * string), @nil string).
  induction markets as [|m ms IH]; intro acc; simpl; [reflexivity|].
  rewrite fold_left_app, fold_left_map_pair, <- IH. f_equal.
  apply fold_left_ext_pt. intros [[to_o to_s] ids] mo. reflexivity.
Qed.

Lemma fold_sub_step (es : list (string * MarketOutcome))
    (to_o to_s : list (string * string)) (ids : list string) (t : string) :
  let '(o', s', ids') := fold_left sub_step es (to_o, to_s, ids) in
  assoc_get t o' = match last_entry t es with
                   | Some e => Some (outcome (snd e))
                   | None => assoc_get t to_o
                   end /\
  assoc_get t s' = match last_entry t es with
                   | Some e => Some (fst e)
                   | None => assoc_get t to_s
                   end /\
  ids' = ids ++ filter (fun tid => negb (String.eqb tid EmptyString))
                  (map (fun e => mo_token_id (snd e)) es).
Proof.
  revert to_o to_s ids.
  induction es as [|[s mo] es IH]; intros to_o to_s ids; simpl.
  - rewrite app_nil_r. repeat split.
  - destruct (String.eqb (mo_token_id mo) EmptyString) eqn:Ee; simpl.
    + specialize (IH to_o to_s ids).
      destruct (fold_left sub_step es (to_o, to_s, ids)) as [[o' s'] ids'].
      destruct IH as (H1 & H2 & H3).
      split; [|split]; [rewrite H1|rewrite H2|exact H3];
        destruct (last_entry t es); reflexivity.
    + specialize (IH (assoc_set (mo_token_id mo) (outcome mo) to_o)
                     (assoc_set (mo_token_id mo) s to_s) (ids ++ [mo_token_id mo])).
      destruct (fold_left sub_step es _) as [[o' s'] ids'].
      destruct IH as (H1 & H2 & H3).
      rewrite H1, H2, H3, <- app_assoc. split; [|split; [|reflexivity]];
        destruct (last_entry t es); try reflexivity;
        rewrite assoc_get_set, String.eqb_sym; destruct (String.eqb (mo_token_id mo) t);
        reflexivity.
Qed.

(** [_subscribe_to_markets] rebuilds both token maps from the markets
    alone (stale tokens of an earlier subscription are gone): a token maps
    to the outcome and the slug of the last market outcome carrying it
    (empty token ids are skipped), and the subscription lists every
    non-empty token id in order, or is not sent when there is none. *)
Theorem subscribe_to_markets_maps (b : WsBot) (markets : list Market)
    (t : string) :
  let '(b', sent) := subscribe_to_markets b markets in
  let es := sub_entries markets in
  assoc_get t (token_id_to_outcome b') = option_map (fun e => outcome (snd e)) (last_entry t es) /\
  assoc_get t (token_id_to_slug b') = option_map fst (last_entry t es) /\
  sent = match filter (fun tid => negb (String.eqb tid EmptyString))
                  (map (fun e => mo_token_id (snd e)) es) with
         | [] => None
         | ids => Some ids
         end /\
  market_detectors b' = market_detectors b /\
  budget_remaining b' = budget_remaining b.
Proof.
  unfold subscribe_to_markets. rewrite token_maps_flat.
  pose proof (fold_sub_step (sub_entries markets) [] [] [] t) as H.
  destruct (fold_left sub_step (sub_entries markets) ([], [], []))
    as [[to_o to_s] ids].
  destruct H as (H1 & H2 & H3). simpl in H3.
  cbn [token_id_to_outcome token_id_to_slug market_detectors budget_remaining].
  rewrite H1, H2, H3.
  split; [|split; [|split; [|split; reflexivity]]];
    [destruct (last_entry t (sub_entries markets)); reflexivity..|].
  destruct (filter _ _); reflexivity.
Qed.

Lemma backoff_double (k : nat) :
  Z.min (Z.min (2 ^ Z.of_nat k) 60 * 2) 60 = Z.min (2 ^ Z.of_nat (S k)) 60.
Proof. rewrite Nat2Z.inj_succ, Z.pow_succ_r by lia. lia. Qed.

Lemma reconnect_delays_gen (k : nat) (attempts : list bool) (i : nat) (d : Z) :
  nth_error (reconnect_delays (Z.min (2 ^ Z.of_nat k) 60) attempts) i = Some d ->
  d = Z.min (2 ^ Z.of_nat (match last_connect (firstn (S i) attempts) with
                            | Some j => i - j
                            | None => i + k
                            end)) 60.
Proof.
  revert k i. induction attempts as [|c rest IH]; intros k i H;
    [destruct i; discriminate|].
  unfold reconnect_delays in H; fold reconnect_delays in H.
  unfold RECONNECT_DELAY, MAX_RECONNECT_DELAY in H.
  destruct i as [|i].
  - simpl in H. inversion H; subst. simpl. destruct c; reflexivity.
  - simpl in H.
    assert (Hk : (Z.min ((if c then 1 else Z.min (2 ^ Z.of_nat k) 60) * 2) 60
                  = Z.min (2 ^ Z.of_nat (if c then 1 else S k)) 60)%Z).
    { destruct c; [reflexivity|apply backoff_double]. }
    rewrite Hk in H. apply IH in H. rewrite H.
    change (firstn (S (S i)) (c :: rest)) with (c :: firstn (S i) rest).
    remember (firstn (S i) rest) as l eqn:El. clear El.
    simpl last_connect.
    destruct (last_connect l) as [j|].
    + reflexivity.
    + destruct c; do 3 f_equal; lia.
Qed.

(** The reconnect delays of [_run_websocket]: the sleep before the
    [i]-th reconnect is [min(2^n, 60)] seconds, where [n] counts the
    iterations since the last successful connection (or since the start),
    so it restarts at 1 second after every successful connection and always
    lies between [RECONNECT_DELAY] and [MAX_RECONNECT_DELAY]. *)
Theorem reconnect_delays_backoff (attempts : list bool) (i : nat) (d : Z) :
  nth_error (reconnect_delays RECONNECT_DELAY attempts) i = Some d ->
  d = Z.min (2 ^ Z.of_nat (match last_connect (firstn (S i) attempts) with
                            | Some j => i - j
                            | None => i
                            end)) MAX_RECONNECT_DELAY /\
  (RECONNECT_DELAY <= d <= MAX_RECONNECT_DELAY)%Z.
Proof.
  intro H. change RECONNECT_DELAY with (Z.min (2 ^ Z.of_nat 0) 60) in H.
  apply reconnect_delays_gen in H.
  replace (match last_connect (firstn (S i) attempts) with
           | Some j => i - j | None => i end)%nat
    with (match last_connect (firstn (S i) attempts) with
          | Some j => i - j | None => i + 0 end)%nat
    by (destruct (last_connect (firstn (S i) attempts)); lia).
  split; [exact H|].
  unfold RECONNECT_DELAY, MAX_RECONNECT_DELAY. rewrite H.
  match goal with |- context [(2 ^ ?e)%Z] =>
    assert (Hp : (0 < 2 ^ e)%Z) by (apply Z.pow_pos_nonneg; lia) end.
  lia.
Qed.

Lemma reconnect_delays_backoff_witness :
  nth_error (reconnect_delays RECONNECT_DELAY
               [false; false; true; false; false; false; false; false; false]) 8
    = Some 60%Z /\
  nth_error (reconnect_delays RECONNECT_DELAY
               [false; false; true; false; false; false; false; false; false]) 4
    = Some 4%Z.
Proof.
  assert (H8 : nth_error (reconnect_delays RECONNECT_DELAY
               [false; false; true; false; false; false; false; false; false]) 8
               = Some 60%Z) by reflexivity.
  assert (H4 : nth_error (reconnect_delays RECONNECT_DELAY
               [false; false; true; false; false; false; false; false; false]) 4
               = Some 4%Z) by reflexivity.
  destruct (reconnect_delays_backoff _ _ _ H8) as [_ _].
  destruct (reconnect_delays_backoff _ _ _ H4) as [_ _].
  split; [exact H8|exact H4].
Defined.
